(** * ccputemp: a shallow embedding of [ccputemp.c]

    The program samples a thermal-zone pseudo file once per second,
    converts the reading to a temperature unit, keeps a running sum,
    minimum and maximum, and reports them.  This development embeds the
    functions of [ccputemp.c] as Rocq functions over

    - IEEE 754 binary32 values (C [float]) taken from the Standard
      Library's [SpecFloat], with round-to-nearest-even arithmetic;
    - machine integers as [Z] with their wrap-around written out;
    - an explicit view of the operating system ([world]) and an explicit
      trace of what the program prints and writes. *)

From Stdlib Require Import ZArith List Bool Ascii String Lia QArith Qabs
  Qpower Qfield.
From Stdlib Require Import Floats.SpecFloat.
Import ListNotations.

Local Open Scope Z_scope.

(** ** C [float]: IEEE 754 binary32 *)

Module F32.

Definition prec : Z := 24.
Definition emax : Z := 128.

Definition t : Type := spec_float.

Definition add : t -> t -> t := SFadd prec emax.
Definition mul : t -> t -> t := SFmul prec emax.
Definition div : t -> t -> t := SFdiv prec emax.

(** The C relational operators on [float]; both are false on a NaN. *)
Definition lt (a b : t) : bool := SFltb a b.
Definition gt (a b : t) : bool := SFltb b a.
Definition le (a b : t) : bool := SFleb a b.

(** [(float) n] for an integer [n]: rounded to nearest, ties to even. *)
Definition of_Z (n : Z) : t := binary_normalize prec emax n 0 false.

(** A decimal literal [num/den] with the [f] suffix: the binary32 value
    nearest to the quotient.  [num] and [den] have to be exactly
    representable, so that the only rounding is that of the division. *)
Definition of_ratio (num den : Z) : t := div (of_Z num) (of_Z den).

Definition zero : t := S754_zero false.

(** [FLT_MAX] and [FLT_MIN] of <float.h>: the largest finite value
    [(2^24 - 1) * 2^104] and the smallest positive normal value
    [2^-126]. *)
Definition FLT_MAX : t := S754_finite false 16777215 104.
Definition FLT_MIN : t := S754_finite false 8388608 (-149).

Definition is_nan (x : t) : bool :=
  match x with S754_nan => true | _ => false end.

Definition is_finite (x : t) : bool :=
  match x with S754_zero _ | S754_finite _ _ _ => true | _ => false end.

(** The rational number a finite value denotes (0 for the others). *)
Definition to_Q (x : t) : Q :=
  match x with
  | S754_finite s m e =>
      let v := (inject_Z (Zpos m) * Qpower 2 e)%Q in
      if s then Qopp v else v
  | _ => 0%Q
  end.

(** Well-formed binary32 values: canonical mantissa, bounded exponent. *)
Definition valid (x : t) : bool := valid_binary prec emax x.

End F32.

Definition float32 : Type := F32.t.

(** ** Temperature units and the unit converter *)

Inductive temp_unit_t : Type := CELSIUS | FAHRENHEIT | KELVIN.

Definition g_default_temp_unit : temp_unit_t := CELSIUS.
Definition g_default_runtime_secs : Z := 5.
Definition g_default_log_file : string := "/var/log/cputemp.log".

(** The literals [1.8f], [32.0f] and [273.15f]. *)
Definition lit_1_8f : float32 := Eval vm_compute in F32.of_ratio 18 10.
Definition lit_32_0f : float32 := Eval vm_compute in F32.of_Z 32.
Definition lit_273_15f : float32 := Eval vm_compute in F32.of_ratio 27315 100.

Definition ccputemp_convert_unit_from_celsius
    (val : float32) (unit : temp_unit_t) : float32 :=
  match unit with
  | CELSIUS => val
  | FAHRENHEIT => F32.add (F32.mul lit_1_8f val) lit_32_0f
  | KELVIN => F32.add val lit_273_15f
  end.

Definition ccputemp_temp_unit_t_to_str (unit : temp_unit_t) : string :=
  match unit with
  | CELSIUS => "Celsius"
  | FAHRENHEIT => "Fahrenheit"
  | KELVIN => "Kelvin"
  end.

(** ** The operating system as the program sees it *)

Definition path : Type := string.

(** What [fopen (p, "r")] followed by reads delivers: the bytes of the
    file, or a stream on which the first read fails. *)
Inductive rstream : Type :=
| ReadError
| Bytes (data : list ascii).

(** One observation of the machine.  [w_stat p] is [stat (p, _) == 0];
    [w_fopen_r p] is the outcome of [fopen (p, "r")], [None] for [NULL];
    [w_fopen_a p] tells whether [fopen (p, "a")] yields a stream;
    [w_sigint] is the value of [g_ctrl_c_signal] (set by the SIGINT
    handler); [w_time] is [time (NULL)]. *)
Record world : Type := World {
  w_stat : path -> bool;
  w_fopen_r : path -> option rstream;
  w_fopen_a : path -> bool;
  w_sigint : bool;
  w_time : Z
}.

(** ** C library functions used by the sample reader *)

Definition NUL : ascii := "000"%char.
Definition LF : ascii := "010"%char.

(** The characters [fgets] stores for a request of [n] more characters:
    it stops after a newline, at the end of the file, or when the room
    is used up. *)
Fixpoint fgets_chars (n : nat) (s : list ascii) : list ascii :=
  match n, s with
  | O, _ => []
  | _, [] => []
  | S n', c :: s' =>
      if Ascii.eqb c LF then [c] else c :: fgets_chars n' s'
  end.

(** [fgets (buf, size, fh)]: [None] is the [NULL] result (read error, or
    end of file before any character); otherwise at most [size - 1]
    characters are stored. *)
Definition fgets (size : nat) (fh : rstream) : option (list ascii) :=
  match fh with
  | ReadError => None
  | Bytes [] => None
  | Bytes s => Some (fgets_chars (size - 1) s)
  end.

(** A [char] buffer read as a C string ends at its first NUL byte. *)
Fixpoint c_str (buf : list ascii) : list ascii :=
  match buf with
  | [] => []
  | c :: r => if Ascii.eqb c NUL then [] else c :: c_str r
  end.

Definition isspace (c : ascii) : bool :=
  let n := nat_of_ascii c in
  (Nat.eqb n 32 || (Nat.leb 9 n && Nat.leb n 13))%bool.

Definition isdigit (c : ascii) : bool :=
  let n := nat_of_ascii c in (Nat.leb 48 n && Nat.leb n 57)%bool.

Definition digit_val (c : ascii) : Z := Z.of_nat (nat_of_ascii c) - 48.

Fixpoint skip_space (s : list ascii) : list ascii :=
  match s with
  | c :: r => if isspace c then skip_space r else s
  | [] => []
  end.

Fixpoint digits_value (acc : Z) (s : list ascii) : Z :=
  match s with
  | c :: r => if isdigit c then digits_value (10 * acc + digit_val c) r else acc
  | [] => acc
  end.

Definition LONG_MAX : Z := 2 ^ 63 - 1.
Definition LONG_MIN : Z := - 2 ^ 63.

(** [strtol (s, NULL, 10)]: leading white space, an optional sign, then
    the longest run of decimal digits (0 when there is none); a value out
    of range is clamped to [LONG_MIN] or [LONG_MAX]. *)
Definition strtol (s : list ascii) : Z :=
  let s1 := skip_space s in
  let '(neg, s2) :=
    match s1 with
    | c :: r =>
        if Ascii.eqb c "-"%char then (true, r)
        else if Ascii.eqb c "+"%char then (false, r)
        else (false, s1)
    | [] => (false, s1)
    end in
  let v := digits_value 0 s2 in
  let v := if neg then - v else v in
  Z.max LONG_MIN (Z.min LONG_MAX v).

(** Conversion to a 32-bit [int] (two's complement wrap-around). *)
Definition to_int (z : Z) : Z := (z + 2 ^ 31) mod 2 ^ 32 - 2 ^ 31.

(** Conversion to a 64-bit [size_t] and to a 32-bit [unsigned int]. *)
Definition to_size_t (z : Z) : Z := z mod 2 ^ 64.
Definition to_uint (z : Z) : Z := z mod 2 ^ 32.

(** [atoi (s)], as the C library of the target defines it:
    [(int) strtol (s, NULL, 10)]. *)
Definition atoi (s : list ascii) : Z := to_int (strtol s).

(** ** The sample reader *)

Definition tmp_buf_len : nat := 32.

(** [ccputemp_get_thermal_value_from_file (src_file, val)].  [None] is
    the result [-1] (with [*val] untouched), [Some v] the result [0] with
    [v] stored in [*val].  [src_file] is [None] for a null pointer; [val]
    always points to the caller's local variable. *)
Definition ccputemp_get_thermal_value_from_file
    (w : world) (src_file : option path) : option float32 :=
  match src_file with
  | None => None
  | Some p =>
      match w_fopen_r w p with
      | None => None
      | Some file_handle =>
          match fgets tmp_buf_len file_handle with
          | None => None
          | Some tmp_buf => Some (F32.of_Z (Z.quot (atoi (c_str tmp_buf)) 1000))
          end
      end
  end.

Definition ccputemp_get_unit_temp_from_file
    (w : world) (src_file : option path) (unit : temp_unit_t)
    : option float32 :=
  match src_file with
  | None => None
  | Some _ =>
      match ccputemp_get_thermal_value_from_file w src_file with
      | None => None
      | Some val => Some (ccputemp_convert_unit_from_celsius val unit)
      end
  end.

(** ** The thermal source locator *)

Definition g_thermal_path_list : list path := [
  "/sys/devices/LNXSYSTM:00/LNXTHERM:00/LNXTHERM:01/thermal_zone/temp";
  "/sys/bus/acpi/devices/LNXTHERM:00/thermal_zone/temp";
  "/proc/acpi/thermal_zone/THM0/temperature";
  "/proc/acpi/thermal_zone/THRM/temperature";
  "/proc/acpi/thermal_zone/THR1/temperature"
]%string.

(** [sizeof (const char * )] in the LP64 data model of the target, where
    [long], [size_t] and pointers have 64 bits. *)
Definition sizeof_char_ptr : Z := 8.

(** [sizeof (g_thermal_path_list)]: the size of the array in bytes. *)
Definition g_thermal_path_list_len : Z :=
  Z.of_nat (List.length g_thermal_path_list) * sizeof_char_ptr.

(** What a call of the locator does: it returns an entry of the array,
    returns [NULL], or reads [g_thermal_path_list[i]] with [i] outside
    the array, which has no defined behaviour. *)
Inductive located : Type :=
| PathFound (p : path)
| PathNull
| PathOverrun (i : nat).

(** The [for] loop of the locator, [n] iterations from index [i] on. *)
Fixpoint thermal_path_loop (w : world) (n i : nat) : located :=
  match n with
  | O => PathNull
  | S n' =>
      match nth_error g_thermal_path_list i with
      | None => PathOverrun i
      | Some p =>
          if w_stat w p then PathFound p else thermal_path_loop w n' (S i)
      end
  end.

Definition ccputemp_get_thermal_path (w : world) : located :=
  thermal_path_loop w (Z.to_nat g_thermal_path_list_len) 0.

(** The indices with which the same loop reads the array, in order. *)
Fixpoint thermal_path_reads (w : world) (n i : nat) : list nat :=
  match n with
  | O => []
  | S n' =>
      i :: match nth_error g_thermal_path_list i with
           | None => []
           | Some p =>
               if w_stat w p then [] else thermal_path_reads w n' (S i)
           end
  end.

Definition ccputemp_get_thermal_path_reads (w : world) : list nat :=
  thermal_path_reads w (Z.to_nat g_thermal_path_list_len) 0.

(** ** Observable behaviour *)

(** What the program prints, writes and calls, in order.  The format
    arguments are kept as values. *)
Inductive event : Type :=
| EVersion                                   (* stdout: version line *)
| EHelp                                      (* stdout: help text *)
| EMultipleUnits                             (* stderr *)
| ENoSource                                  (* stderr, normal mode *)
| ENoSourceList                              (* stderr, average mode *)
| ECandidate (p : path)                      (* stderr: one candidate *)
| EPrompt                                    (* stdout: unit prompt *)
| EReadError (p : path)                      (* stderr *)
| ETick (avg : float32) (unit_str : string) (secs : Z)
| ESleep                                     (* sleep (1) *)
| ESummary (hi lo avg : float32) (unit_str : string)
| EAverage (avg : float32) (unit_str : string)
| ENotEnough                                 (* stderr *)
| ELogMissing (f : path)                     (* stderr *)
| ELogCannotOpen (f : path)                  (* stderr *)
| EFopenAppend (f : path)                    (* fopen (f, "a") *)
| ELogBlock (f : path) (time : Z) (secs : Z)
            (hi lo avg : float32) (unit_str : string)
| ELogUpdated.                               (* stdout *)

Definition trace : Type := list event.

Inductive fault : Type :=
| NullStream                 (* fprintf / fclose on a null FILE pointer *)
| ArrayOverrun (i : nat).    (* read of g_thermal_path_list[i], i >= 5 *)

(** How a call ends: it returns, it runs into undefined behaviour, it
    loops forever ([Spin]), or it is still running when the given
    history of the machine is used up ([More]). *)
Inductive result (A : Type) : Type :=
| Ret (a : A)
| Fault (f : fault)
| Spin
| More.

Arguments Ret {A} a.
Arguments Fault {A} f.
Arguments Spin {A}.
Arguments More {A}.

Definition run (A : Type) : Type := (trace * result A)%type.

(** The result type of a C function returning [void]. *)
Definition void : Type := Datatypes.unit.

Definition ret {A : Type} (a : A) : run A := ([], Ret a).
Definition emit (e : event) : run void := ([e], Ret tt).

Definition bind {A B : Type} (m : run A) (k : A -> run B) : run B :=
  match m with
  | (tr, Ret a) => let '(tr', r) := k a in (tr ++ tr', r)
  | (tr, Fault f) => (tr, Fault f)
  | (tr, Spin) => (tr, Spin)
  | (tr, More) => (tr, More)
  end.

Notation "x <- m ;; k" := (bind m (fun x => k))
  (at level 61, m at next level, right associativity).
Notation "m ;;; k" := (bind m (fun _ => k))
  (at level 61, right associativity).

(** ** The logger *)

Definition ccputemp_do_log
    (w : world) (filename : option path)
    (temp_avg temp_min temp_max : float32) (unit : temp_unit_t) (secs : Z)
    : run void :=
  match filename with
  | None => ret tt
  | Some f =>
      if negb (w_stat w f) then emit (ELogMissing f)
      else
        emit (EFopenAppend f) ;;;
        file_handle <- (if w_fopen_a w f then ret true
                        else emit (ELogCannotOpen f) ;;; ret false) ;;
        let unit_str := ccputemp_temp_unit_t_to_str unit in
        if file_handle : bool then
          emit (ELogBlock f (w_time w) secs temp_max temp_min temp_avg
                          unit_str) ;;;
          emit ELogUpdated
        else ([], Fault NullStream)
  end.

(** ** Average-only mode *)

(** The locator as a step of a run: an out-of-bounds read is a fault. *)
Definition locate (w : world) : run (option path) :=
  match ccputemp_get_thermal_path w with
  | PathFound p => ret (Some p)
  | PathNull => ret None
  | PathOverrun i => ([], Fault (ArrayOverrun i))
  end.

(** The loop of [ccputemp_do_avg] that lists the candidates on stderr,
    [n] iterations from index [j] on. *)
Fixpoint show_candidates (n j : nat) : run void :=
  match n with
  | O => ret tt
  | S n' =>
      match nth_error g_thermal_path_list j with
      | None => ([], Fault (ArrayOverrun j))
      | Some p => emit (ECandidate p) ;;; show_candidates n' (S j)
      end
  end.

(** The sampling loop of [ccputemp_do_avg] from counter [i] on, followed
    by the final [printf] and [return 0].  Each iteration sees the next
    world of [ws]. *)
Fixpoint avg_loop (ws : list world) (src_path : path) (unit : temp_unit_t)
    (seconds : Z) (i : Z) (temp_sum : float32) {struct ws} : run Z :=
  if i <? to_size_t seconds then
    match ws with
    | [] => ([], More)
    | w :: ws' =>
        match ccputemp_get_unit_temp_from_file w (Some src_path) unit with
        | None => emit (EReadError src_path) ;;; ret (-1)
        | Some cur_val =>
            emit ESleep ;;;
            avg_loop ws' src_path unit seconds (to_size_t (i + 1))
                     (F32.add temp_sum cur_val)
        end
    end
  else
    emit (EAverage (F32.div temp_sum (F32.of_Z seconds))
                   (ccputemp_temp_unit_t_to_str unit)) ;;;
    ret 0.

(** [ccputemp_do_avg (opt_unit, unit, seconds)].  [w0] is the machine at
    entry; [ws] lists the machine as each iteration of the loop sees it.
    No handler is installed here, so SIGINT ends the process: the model
    covers the runs that are not killed. *)
Definition ccputemp_do_avg (w0 : world) (ws : list world)
    (opt_unit : Z) (unit : temp_unit_t) (seconds : Z) : run Z :=
  src_path <- locate w0 ;;
  emit EVersion ;;;
  match src_path with
  | None =>
      emit ENoSourceList ;;;
      show_candidates (Z.to_nat g_thermal_path_list_len) 0 ;;;
      ret (-1)
  | Some src =>
      let seconds := if seconds <? 1 then g_default_runtime_secs else seconds in
      avg_loop ws src unit seconds 0 F32.zero
  end.

(** ** Normal mode *)

(** The [min] and [max] macros of the source, at type [float]. *)
Module Macro.
Definition max (a b : float32) : float32 := if F32.gt a b then a else b.
Definition min (a b : float32) : float32 := if F32.lt a b then a else b.
End Macro.

(** The locals [i], [temp_sum], [temp_min] and [temp_max]. *)
Record stats : Type := Stats {
  st_i : Z;
  st_sum : float32;
  st_min : float32;
  st_max : float32
}.

Definition stats_init : stats :=
  {| st_i := 0; st_sum := F32.zero;
     st_min := F32.FLT_MAX; st_max := F32.FLT_MIN |}.

(** The three assignments of one iteration and [i++]. *)
Definition stats_update (st : stats) (cur_val : float32) : stats :=
  {| st_i := to_size_t (st_i st + 1);
     st_sum := F32.add (st_sum st) cur_val;
     st_min := Macro.min (st_min st) cur_val;
     st_max := Macro.max (st_max st) cur_val |}.

Definition tolower (c : ascii) : ascii :=
  let n := nat_of_ascii c in
  if (Nat.leb 65 n && Nat.leb n 90)%bool then ascii_of_nat (n + 32) else c.

Definition is_unit_char (c : ascii) : bool :=
  (Ascii.eqb c "c" || Ascii.eqb c "f" || Ascii.eqb c "k")%bool.

(** The prompt loop: one character of [stdin] per round.  At the end of
    the input [fscanf] stores nothing and the loop never ends. *)
Fixpoint prompt_loop (stdin : list ascii) : run ascii :=
  match stdin with
  | [] => ([EPrompt], Spin)
  | ch :: rest =>
      emit EPrompt ;;;
      let input_c := tolower ch in
      if is_unit_char input_c then ret input_c else prompt_loop rest
  end.

Definition unit_of_char (input_c : ascii) : temp_unit_t :=
  if Ascii.eqb input_c "c" then CELSIUS
  else if Ascii.eqb input_c "f" then FAHRENHEIT
  else KELVIN.

(** What follows the [while] loop of [ccputemp_do_normal]. *)
Definition normal_finish (w : world) (unit : temp_unit_t) (st : stats)
    : run Z :=
  let unit_str := ccputemp_temp_unit_t_to_str unit in
  let i := st_i st in
  (if 0 <? i then
     let avg := F32.div (st_sum st) (F32.of_Z (to_size_t (i + 1))) in
     emit (ESummary (st_max st) (st_min st) avg unit_str) ;;;
     ccputemp_do_log w (Some g_default_log_file) avg (st_min st) (st_max st)
                     unit (to_int (to_size_t (i + 1)))
   else emit ENotEnough) ;;;
  ret 0.

(** The [while] loop of [ccputemp_do_normal] and what follows it.  Each
    evaluation of the loop condition sees the next world of [ws]; the
    read of that iteration and, when the loop ends there, the logger see
    the same world. *)
Fixpoint normal_loop (ws : list world) (src_path : path)
    (unit : temp_unit_t) (seconds opt_seconds : Z) (st : stats) : run Z :=
  match ws with
  | [] => ([], More)
  | w :: ws' =>
      if w_sigint w then normal_finish w unit st
      else if (negb (opt_seconds =? 0) && (to_size_t seconds <=? st_i st))%bool
      then normal_finish w unit st
      else
        match ccputemp_get_unit_temp_from_file w (Some src_path) unit with
        | None => emit (EReadError src_path) ;;; ret (-1)
        | Some cur_val =>
            let i := st_i st in
            let st' := stats_update st cur_val in
            emit (ETick (F32.div (st_sum st') (F32.of_Z (to_size_t (i + 1))))
                        (ccputemp_temp_unit_t_to_str unit)
                        (to_uint (to_uint i + 1))) ;;;
            emit ESleep ;;;
            normal_loop ws' src_path unit seconds opt_seconds st'
        end
  end.

(** The block guarded by [opt_unit == 0]: the unit in force after it. *)
Definition choose_unit (stdin : list ascii) (opt_unit : Z)
    (unit : temp_unit_t) : run temp_unit_t :=
  if opt_unit =? 0
  then input_c <- prompt_loop stdin ;; ret (unit_of_char input_c)
  else ret unit.

(** [ccputemp_do_normal (opt_unit, unit, seconds, opt_seconds)]. *)
Definition ccputemp_do_normal (w0 : world) (ws : list world)
    (stdin : list ascii)
    (opt_unit : Z) (unit : temp_unit_t) (seconds opt_seconds : Z) : run Z :=
  src_path <- locate w0 ;;
  emit EVersion ;;;
  match src_path with
  | None => emit ENoSource ;;; ret (-1)
  | Some src =>
      unit <- choose_unit stdin opt_unit unit ;;
      let seconds :=
        if (negb (opt_seconds =? 0) && (seconds <? 1))%bool
        then g_default_runtime_secs else seconds in
      normal_loop ws src unit seconds opt_seconds stats_init
  end.

(** ** [main] *)

Record options : Type := Options {
  opt_help : Z;
  opt_unit : Z;
  opt_unit_val : temp_unit_t;
  opt_version : Z;
  opt_seconds : Z;
  opt_seconds_val : Z;
  opt_avg : Z
}.

Definition options_init : options :=
  {| opt_help := 0; opt_unit := 0; opt_unit_val := g_default_temp_unit;
     opt_version := 0; opt_seconds := 0;
     opt_seconds_val := g_default_runtime_secs; opt_avg := 0 |}.

Definition set_unit (o : options) (u : temp_unit_t) : run (Z + options) :=
  if opt_unit o =? 1 then emit EMultipleUnits ;;; ret (inl (-1))
  else ret (inr {| opt_help := opt_help o; opt_unit := 1; opt_unit_val := u;
                   opt_version := opt_version o;
                   opt_seconds := opt_seconds o;
                   opt_seconds_val := opt_seconds_val o;
                   opt_avg := opt_avg o |}).

(** The option loop of [main] over the successive results of
    [getopt_long], each with its [optarg]; [inl r] is [return r]. *)
Fixpoint parse_options (args : list (ascii * list ascii)) (o : options)
    : run (Z + options) :=
  match args with
  | [] => ret (inr o)
  | (result, optarg) :: rest =>
      r <- (if Ascii.eqb result "h" then
              ret (inr {| opt_help := 1; opt_unit := opt_unit o;
                          opt_unit_val := opt_unit_val o;
                          opt_version := opt_version o;
                          opt_seconds := opt_seconds o;
                          opt_seconds_val := opt_seconds_val o;
                          opt_avg := opt_avg o |})
            else if Ascii.eqb result "C" then set_unit o CELSIUS
            else if Ascii.eqb result "F" then set_unit o FAHRENHEIT
            else if Ascii.eqb result "K" then set_unit o KELVIN
            else if Ascii.eqb result "v" then
              ret (inr {| opt_help := opt_help o; opt_unit := opt_unit o;
                          opt_unit_val := opt_unit_val o;
                          opt_version := 1;
                          opt_seconds := opt_seconds o;
                          opt_seconds_val := opt_seconds_val o;
                          opt_avg := opt_avg o |})
            else if Ascii.eqb result "s" then
              let v := atoi (c_str optarg) in
              ret (inr {| opt_help := opt_help o; opt_unit := opt_unit o;
                          opt_unit_val := opt_unit_val o;
                          opt_version := opt_version o;
                          opt_seconds := 1;
                          opt_seconds_val :=
                            if v <? 1 then g_default_runtime_secs else v;
                          opt_avg := opt_avg o |})
            else if Ascii.eqb result "a" then
              ret (inr {| opt_help := opt_help o; opt_unit := opt_unit o;
                          opt_unit_val := opt_unit_val o;
                          opt_version := opt_version o;
                          opt_seconds := opt_seconds o;
                          opt_seconds_val := opt_seconds_val o;
                          opt_avg := 1 |})
            else emit EHelp ;;; ret (inl (-1))) ;;
      match r with
      | inl code => ret (inl code)
      | inr o' => parse_options rest o'
      end
  end.

Definition main (args : list (ascii * list ascii)) (stdin : list ascii)
    (w0 : world) (ws : list world) : run Z :=
  r <- parse_options args options_init ;;
  match r with
  | inl code => ret code
  | inr o =>
      if opt_help o =? 1 then emit EHelp ;;; ret 0
      else if opt_version o =? 1 then emit EVersion ;;; ret 0
      else if opt_avg o =? 1
      then ccputemp_do_avg w0 ws (opt_unit o) (opt_unit_val o)
                           (opt_seconds_val o)
      else ccputemp_do_normal w0 ws stdin (opt_unit o) (opt_unit_val o)
                              (opt_seconds_val o) (opt_seconds o)
  end.

(** ** Vocabulary of the statements *)

(** A tick is one completed iteration of a sampling loop; each ends with
    [sleep (1)]. *)
Definition is_tick (e : event) : bool :=
  match e with ESleep => true | _ => false end.

Definition ticks (tr : trace) : nat := List.length (filter is_tick tr).

(** The final reports of a run and everything the logger does. *)
Definition is_report (e : event) : bool :=
  match e with
  | ESummary _ _ _ _ | EAverage _ _ | ENotEnough
  | ELogMissing _ | ELogCannotOpen _ | EFopenAppend _
  | ELogBlock _ _ _ _ _ _ _ | ELogUpdated => true
  | _ => false
  end.

(** The final summary of normal mode and the final line of average mode,
    when the trace has one. *)
Fixpoint summary_of (tr : trace) : option (float32 * float32 * float32) :=
  match tr with
  | [] => None
  | ESummary hi lo avg _ :: _ => Some (hi, lo, avg)
  | _ :: r => summary_of r
  end.

Fixpoint average_of (tr : trace) : option float32 :=
  match tr with
  | [] => None
  | EAverage avg _ :: _ => Some avg
  | _ :: r => average_of r
  end.

(** A world in which the sample read succeeds, and the sample it gives. *)
Definition readable (src : path) (w : world) : Prop :=
  ccputemp_get_thermal_value_from_file w (Some src) <> None.

(** A world in which a tick of normal mode takes place: no SIGINT seen
    and the read succeeds. *)
Definition calm (src : path) (w : world) : Prop :=
  w_sigint w = false /\ readable src w.

Definition sample_of (src : path) (unit : temp_unit_t) (w : world)
    : float32 :=
  match ccputemp_get_unit_temp_from_file w (Some src) unit with
  | Some v => v
  | None => F32.zero
  end.

Definition samples (src : path) (unit : temp_unit_t) (ws : list world)
    : list float32 := map (sample_of src unit) ws.

(** The sum of the samples as the loops form it: from [0.0f], left to
    right, each addition rounded. *)
Definition fsum (l : list float32) : float32 := fold_left F32.add l F32.zero.

(** The locals after the samples [l] have been accumulated. *)
Definition stats_after (l : list float32) (st : stats) : stats :=
  fold_left stats_update l st.

(** What normal mode prints for the samples [l], from the locals [st]. *)
Fixpoint tick_trace (unit : temp_unit_t) (l : list float32) (st : stats)
    : trace :=
  match l with
  | [] => []
  | v :: l' =>
      let st' := stats_update st v in
      ETick (F32.div (st_sum st') (F32.of_Z (to_size_t (st_i st + 1))))
            (ccputemp_temp_unit_t_to_str unit)
            (to_uint (to_uint (st_i st) + 1))
      :: ESleep :: tick_trace unit l' st'
  end.

(** The duration in force in a bounded run: the default when the
    argument is below 1. *)
Definition effective_seconds (seconds : Z) : Z :=
  if seconds <? 1 then g_default_runtime_secs else seconds.

(** The first candidate that exists, in declaration order. *)
Definition first_existing (w : world) : option path :=
  find (w_stat w) g_thermal_path_list.

(** Whether a line starts, after white space and an optional sign, with
    a decimal digit: the inputs a checked conversion would accept. *)
Definition starts_with_integer (s : list ascii) : bool :=
  match skip_space s with
  | [] => false
  | c :: r =>
      if (Ascii.eqb c "-" || Ascii.eqb c "+")%bool
      then match r with d :: _ => isdigit d | [] => false end
      else isdigit c
  end.

(** The error condition of the sample reader as the specification words
    it: the path cannot be opened, the first line cannot be read, the
    buffer is empty, or the contents do not parse as an integer. *)
Definition claimed_reader_error (w : world) (p : path) : Prop :=
  w_fopen_r w p = None \/
  exists fh, w_fopen_r w p = Some fh /\
    (fgets tmp_buf_len fh = None \/
     exists buf, fgets tmp_buf_len fh = Some buf /\
       (c_str buf = [] \/ starts_with_integer (c_str buf) = false)).

(** The distance between what the converter gives at the whole Celsius
    value [c] and the exact value of the formula, as a rational. *)
Definition zrange (lo : Z) (n : nat) : list Z :=
  map (fun k => lo + Z.of_nat k) (seq 0 n).

Definition conversion_error (u : temp_unit_t) (c : Z) : Q :=
  let exact :=
    match u with
    | CELSIUS => inject_Z c
    | FAHRENHEIT => ((18 # 10) * inject_Z c + inject_Z 32)%Q
    | KELVIN => (inject_Z c + (27315 # 100))%Q
    end in
  Qabs (F32.to_Q (ccputemp_convert_unit_from_celsius (F32.of_Z c) u) - exact).

(** ** Sample machines *)

Definition thm0 : path := "/proc/acpi/thermal_zone/THM0/temperature"%string.

Definition line (s : string) : list ascii := list_ascii_of_string s ++ [LF].

(** A machine whose only thermal file is [thm0], holding [data]; the log
    file exists and can be appended to as the two flags say. *)
Definition machine (data : list ascii) (sigint log_exists log_appendable : bool)
    : world :=
  {| w_stat := fun p =>
       (String.eqb p thm0 || (String.eqb p g_default_log_file && log_exists))%bool;
     w_fopen_r := fun p =>
       if String.eqb p thm0 then Some (Bytes data) else None;
     w_fopen_a := fun p => (String.eqb p g_default_log_file && log_appendable)%bool;
     w_sigint := sigint;
     w_time := 1350000000 |}.

(** A machine without any of the candidate files. *)
Definition bare_machine : world :=
  {| w_stat := fun _ => false; w_fopen_r := fun _ => None;
     w_fopen_a := fun _ => false; w_sigint := false; w_time := 1350000000 |}.

(** A machine on which [thm0] exists but cannot be opened for reading. *)
Definition locked_machine : world :=
  {| w_stat := fun p => String.eqb p thm0; w_fopen_r := fun _ => None;
     w_fopen_a := fun _ => false; w_sigint := false; w_time := 1350000000 |}.

(** ** Further vocabulary *)

(** The boolean form of [readable]. *)
Definition readable_b (src : path) (w : world) : bool :=
  match ccputemp_get_thermal_value_from_file w (Some src) with
  | Some _ => true
  | None => false
  end.

(** The per-tick lines of a trace: the average and the seconds printed. *)
Fixpoint tick_lines (tr : trace) : list (float32 * Z) :=
  match tr with
  | [] => []
  | ETick avg _ secs :: r => (avg, secs) :: tick_lines r
  | _ :: r => tick_lines r
  end.

(** The log entries of a trace: seconds, highest, lowest, average. *)
Fixpoint log_entries (tr : trace)
    : list (Z * float32 * float32 * float32) :=
  match tr with
  | [] => []
  | ELogBlock _ _ secs hi lo avg _ :: r => (secs, hi, lo, avg) :: log_entries r
  | _ :: r => log_entries r
  end.

(** The diagnostics of the branches taken when the locator gives [NULL]. *)
Definition is_no_source (e : event) : bool :=
  match e with
  | ENoSource | ENoSourceList | ECandidate _ => true
  | _ => false
  end.

(** What only normal mode may produce: per-tick lines, the summary, the
    "not enough measurements" line and everything the logger does. *)
Definition is_normal_only (e : event) : bool :=
  match e with
  | ETick _ _ _ | ESummary _ _ _ _ | ENotEnough | EPrompt
  | ELogMissing _ | ELogCannotOpen _ | EFopenAppend _
  | ELogBlock _ _ _ _ _ _ _ | ELogUpdated => true
  | _ => false
  end.

(** A character the unit prompt accepts. *)
Definition is_unit_letter (ch : ascii) : bool := is_unit_char (tolower ch).

(** The options [main] knows, and among them the unit flags. *)
Definition is_unit_flag (c : ascii) : bool :=
  (Ascii.eqb c "C" || Ascii.eqb c "F" || Ascii.eqb c "K")%bool.

Definition valid_option (c : ascii) : bool :=
  (Ascii.eqb c "h" || is_unit_flag c || Ascii.eqb c "v" ||
   Ascii.eqb c "s" || Ascii.eqb c "a")%bool.

Definition unit_flags (args : list (ascii * list ascii)) : nat :=
  List.length (filter (fun a => is_unit_flag (fst a)) args).

Definition has_option (c : ascii) (args : list (ascii * list ascii)) : bool :=
  existsb (fun a => Ascii.eqb (fst a) c) args.

(** The duration normal mode works with: the default replaces a value
    below 1 when the seconds flag is given. *)
Definition seconds_in_force (opt_seconds seconds : Z) : Z :=
  if (negb (opt_seconds =? 0) && (seconds <? 1))%bool
  then g_default_runtime_secs else seconds.

(** [n] ticks fit into the run: there is no bound, or [n] is within it. *)
Definition within_bound (opt_seconds s : Z) (n : nat) : Prop :=
  opt_seconds = 0 \/ Z.of_nat n <= to_size_t s.

(** After [n] ticks the loop of normal mode ends in the world [w]: SIGINT
    has been seen, or the bound is reached. *)
Definition loop_ends (opt_seconds s : Z) (n : nat) (w : world) : Prop :=
  w_sigint w = true \/ (opt_seconds <> 0 /\ to_size_t s <= Z.of_nat n).

(** The events the loop of average mode can produce, and those the loop
    of normal mode and what follows it can produce. *)
Definition avg_loop_event (e : event) : bool :=
  match e with
  | ESleep | EReadError _ | EAverage _ _ => true
  | _ => false
  end.

Definition normal_loop_event (e : event) : bool :=
  match e with
  | ETick _ _ _ | ESleep | EReadError _ | ESummary _ _ _ _ | ENotEnough
  | ELogMissing _ | ELogCannotOpen _ | EFopenAppend _
  | ELogBlock _ _ _ _ _ _ _ | ELogUpdated => true
  | _ => false
  end.

(** The effect of each option of [main] on the option variables. *)
Definition set_help (o : options) : options :=
  {| opt_help := 1; opt_unit := opt_unit o; opt_unit_val := opt_unit_val o;
     opt_version := opt_version o; opt_seconds := opt_seconds o;
     opt_seconds_val := opt_seconds_val o; opt_avg := opt_avg o |}.

Definition set_version (o : options) : options :=
  {| opt_help := opt_help o; opt_unit := opt_unit o;
     opt_unit_val := opt_unit_val o; opt_version := 1;
     opt_seconds := opt_seconds o; opt_seconds_val := opt_seconds_val o;
     opt_avg := opt_avg o |}.

Definition set_seconds (o : options) (optarg : list ascii) : options :=
  {| opt_help := opt_help o; opt_unit := opt_unit o;
     opt_unit_val := opt_unit_val o; opt_version := opt_version o;
     opt_seconds := 1;
     opt_seconds_val :=
       if atoi (c_str optarg) <? 1 then g_default_runtime_secs
       else atoi (c_str optarg);
     opt_avg := opt_avg o |}.

Definition set_avg (o : options) : options :=
  {| opt_help := opt_help o; opt_unit := opt_unit o;
     opt_unit_val := opt_unit_val o; opt_version := opt_version o;
     opt_seconds := opt_seconds o; opt_seconds_val := opt_seconds_val o;
     opt_avg := 1 |}.

Definition set_unit_val (o : options) (u : temp_unit_t) : options :=
  {| opt_help := opt_help o; opt_unit := 1; opt_unit_val := u;
     opt_version := opt_version o; opt_seconds := opt_seconds o;
     opt_seconds_val := opt_seconds_val o; opt_avg := opt_avg o |}.

Definition unit_of_flag (c : ascii) : temp_unit_t :=
  if Ascii.eqb c "C" then CELSIUS
  else if Ascii.eqb c "F" then FAHRENHEIT else KELVIN.

(** Option variables a run mode can be entered with: the unit flag is 0
    or 1 and the duration is a positive [int]. *)
Definition options_ok (o : options) : Prop :=
  (opt_unit o = 0 \/ opt_unit o = 1) /\ 1 <= opt_seconds_val o < 2 ^ 31.

(** * Properties *)

(** ** The unit converter *)

Lemma lit_1_8f_nearest :
  (Qabs (F32.to_Q lit_1_8f - (18 # 10)) <= Qpower 2 (-24))%Q.
Proof. apply Qle_bool_imp_le. vm_compute. reflexivity. Qed.

Lemma lit_273_15f_nearest :
  (Qabs (F32.to_Q lit_273_15f - (27315 # 100)) <= Qpower 2 (-16))%Q.
Proof. apply Qle_bool_imp_le. vm_compute. reflexivity. Qed.

Lemma lit_32_0f_exact : (F32.to_Q lit_32_0f == 32)%Q.
Proof. vm_compute. reflexivity. Qed.

(** C10: the unit converter is a total function that leaves a Celsius
    value unchanged, maps it to Fahrenheit as [1.8 * c + 32] and to Kelvin
    as [c + 273.15], the operations being those of C [float] and the
    constants the binary32 values nearest to the decimals; at [0] it gives
    [32] and [273.15f]. *)
Theorem convert_unit_formulas : forall c : float32,
  ccputemp_convert_unit_from_celsius c CELSIUS = c /\
  ccputemp_convert_unit_from_celsius c FAHRENHEIT =
    F32.add (F32.mul (F32.of_ratio 18 10) c) (F32.of_Z 32) /\
  ccputemp_convert_unit_from_celsius c KELVIN =
    F32.add c (F32.of_ratio 27315 100) /\
  ccputemp_convert_unit_from_celsius F32.zero FAHRENHEIT = F32.of_Z 32 /\
  ccputemp_convert_unit_from_celsius F32.zero KELVIN = F32.of_ratio 27315 100.
Proof.
  intro c. repeat split; try reflexivity.
Qed.

(** X5: from -300 to 300 degrees Celsius the Fahrenheit and Kelvin results
    are within 1/20000 of [9c/5 + 32] and [c + 273.15]. *)
Lemma conversion_accuracy : forall u c,
  In c (zrange (-300) 601) -> (conversion_error u c <= 1 # 20000)%Q.
Proof.
  intros u c Hc. apply Qle_bool_imp_le.
  assert (H : forallb (fun c => Qle_bool (conversion_error u c) (1 # 20000))
                      (zrange (-300) 601) = true)
    by (destruct u; vm_compute; reflexivity).
  rewrite forallb_forall in H. exact (H c Hc).
Qed.

(** ** The sample reader *)

Lemma reader_null_path : forall w,
  ccputemp_get_thermal_value_from_file w None = None.
Proof. reflexivity. Qed.

Lemma digits_value_no_digit : forall s acc,
  match s with d :: _ => isdigit d | [] => false end = false ->
  digits_value acc s = acc.
Proof.
  intros [|d s] acc H; cbn [digits_value]; [reflexivity|].
  rewrite H. reflexivity.
Qed.

(** A line that does not start with an integer is converted to 0. *)
Lemma atoi_without_integer : forall s,
  starts_with_integer s = false -> atoi s = 0.
Proof.
  intros s H. unfold atoi, strtol. unfold starts_with_integer in H.
  destruct (skip_space s) as [|c r]; [reflexivity|].
  destruct (Ascii.eqb c "-") eqn:Em; cbn [orb] in H.
  - rewrite (digits_value_no_digit r 0 H). reflexivity.
  - destruct (Ascii.eqb c "+") eqn:Ep.
    + rewrite (digits_value_no_digit r 0 H). reflexivity.
    + rewrite (digits_value_no_digit (c :: r) 0 H). reflexivity.
Qed.

(** C4, as the code has it: the reader fails exactly when the path is
    null, the stream cannot be opened, the first read fails, or the file
    has no byte at all; on every other file it succeeds with the value
    it computes from [atoi] of the line.  Contents that do not parse as
    an integer are no error: the reader then succeeds with the value 0. *)
Theorem reader_error_cases : forall w src_file,
  match src_file with
  | None => ccputemp_get_thermal_value_from_file w None = None
  | Some p =>
      (ccputemp_get_thermal_value_from_file w (Some p) = None <->
       (w_fopen_r w p = None \/ w_fopen_r w p = Some ReadError \/
        w_fopen_r w p = Some (Bytes []))) /\
      match w_fopen_r w p with
      | Some (Bytes (c :: s)) =>
          ccputemp_get_thermal_value_from_file w (Some p) =
          Some (F32.of_Z
                  (Z.quot (atoi (c_str (fgets_chars 31 (c :: s)))) 1000)) /\
          (if starts_with_integer (c_str (fgets_chars 31 (c :: s)))
           then True
           else ccputemp_get_thermal_value_from_file w (Some p)
                = Some F32.zero)
      | _ => ccputemp_get_thermal_value_from_file w (Some p) = None
      end
  end.
Proof.
  intros w [p|]; [|reflexivity].
  unfold ccputemp_get_thermal_value_from_file.
  destruct (w_fopen_r w p) as [[|[|c s]]|]; cbn [fgets tmp_buf_len Nat.sub].
  - split; [|reflexivity]. split; auto.
  - split; [|reflexivity]. split; auto.
  - split.
    + split; intro H; [discriminate H|].
      destruct H as [H|[H|H]]; discriminate H.
    + split; [reflexivity|].
      destruct (starts_with_integer (c_str (fgets_chars 31 (c :: s))))
        eqn:E; [exact I|].
      rewrite (atoi_without_integer _ E). reflexivity.
  - split; [|reflexivity]. split; auto.
Qed.

(** C4, counterexample: a file holding the line [abc] is read with
    success (value 0), although its contents do not parse as an
    integer. *)
Lemma reader_accepts_garbage :
  ~ (ccputemp_get_thermal_value_from_file
       (machine (line "abc"%string) false true true) (Some thm0) = None <->
     claimed_reader_error (machine (line "abc"%string) false true true) thm0).
Proof.
  intros [_ H].
  assert (E : claimed_reader_error (machine (line "abc"%string) false true true) thm0).
  { right. exists (Bytes (line "abc"%string)). split; [reflexivity|].
    right. exists (line "abc"%string). split; [reflexivity|].
    right. reflexivity. }
  specialize (H E). vm_compute in H. discriminate H.
Qed.

Example reader_garbage_value :
  ccputemp_get_thermal_value_from_file
    (machine (line "abc"%string) false true true) (Some thm0) = Some F32.zero.
Proof. reflexivity. Qed.

(** C5: on a file holding [45500] the reader yields 45, not 45.5: the
    division by 1000 is an integer division, done before the conversion
    to [float]. *)
Theorem reader_truncates_millidegrees :
  ccputemp_get_thermal_value_from_file
    (machine (line "45500"%string) false true true) (Some thm0) = Some (F32.of_Z 45) /\
  (F32.to_Q (F32.of_Z 45) == 45)%Q /\
  (F32.to_Q (F32.of_ratio 45500 1000) == 455 # 10)%Q /\
  F32.of_Z 45 <> F32.of_ratio 45500 1000.
Proof.
  repeat split; try (vm_compute; reflexivity).
  vm_compute. discriminate.
Qed.

(** The value delivered is always a whole number of degrees. *)
Lemma reader_whole_degrees : forall w p v,
  ccputemp_get_thermal_value_from_file w p = Some v ->
  exists k : Z, v = F32.of_Z k /\ - 2147483 <= k <= 2147483.
Proof.
  intros w [p|] v; [|discriminate].
  unfold ccputemp_get_thermal_value_from_file.
  destruct (w_fopen_r w p) as [fh|]; [|discriminate].
  destruct (fgets tmp_buf_len fh) as [buf|]; [|discriminate].
  intro H. injection H as <-.
  exists (Z.quot (atoi (c_str buf)) 1000). split; [reflexivity|].
  assert (B : - 2 ^ 31 <= atoi (c_str buf) < 2 ^ 31).
  { unfold atoi, to_int.
    pose proof (Z.mod_pos_bound (strtol (c_str buf) + 2 ^ 31) (2 ^ 32)
                  ltac:(reflexivity)). lia. }
  change (2 ^ 31) with 2147483648 in B.
  generalize dependent (atoi (c_str buf)). intros a B.
  pose proof (Z.quot_le_mono a 2147483647 1000 ltac:(lia) ltac:(lia)) as U.
  pose proof (Z.quot_le_mono (-2147483648) a 1000 ltac:(lia) ltac:(lia)) as L.
  change (Z.quot 2147483647 1000) with 2147483 in U.
  change (Z.quot (-2147483648) 1000) with (-2147483) in L.
  lia.
Qed.

(** ** The thermal source locator *)

Lemma thermal_path_list_sizes :
  List.length g_thermal_path_list = 5%nat /\ g_thermal_path_list_len = 40.
Proof. split; reflexivity. Qed.

Ltac by_candidates w :=
  cbn [thermal_path_loop thermal_path_reads nth_error find
       g_thermal_path_list];
  repeat match goal with
         | |- context [w_stat w ?p] => destruct (w_stat w p) eqn:?
         end;
  try reflexivity; try discriminate; try congruence.

(** The part of the locator that works: a candidate that exists is found,
    and it is the first one in declaration order. *)
Lemma locator_first_existing : forall w p,
  first_existing w = Some p -> ccputemp_get_thermal_path w = PathFound p.
Proof.
  intros w p. unfold first_existing, ccputemp_get_thermal_path.
  change (Z.to_nat g_thermal_path_list_len) with 40%nat.
  by_candidates w.
Qed.

Lemma locator_found_is_first : forall w p,
  ccputemp_get_thermal_path w = PathFound p -> first_existing w = Some p.
Proof.
  intros w p. unfold first_existing, ccputemp_get_thermal_path.
  change (Z.to_nat g_thermal_path_list_len) with 40%nat.
  by_candidates w.
Qed.

Lemma first_existing_none : forall w,
  first_existing w = None <->
  forall p, In p g_thermal_path_list -> w_stat w p = false.
Proof.
  intro w. unfold first_existing. split.
  - intros H p Hp. exact (find_none _ _ H p Hp).
  - intro H. destruct (find (w_stat w) g_thermal_path_list) as [p|] eqn:E;
      [|reflexivity].
    apply find_some in E. destruct E as [Hin Hs].
    rewrite (H p Hin) in Hs. discriminate Hs.
Qed.

Lemma locator_overrun : forall w,
  first_existing w = None -> ccputemp_get_thermal_path w = PathOverrun 5.
Proof.
  intro w. unfold first_existing, ccputemp_get_thermal_path.
  change (Z.to_nat g_thermal_path_list_len) with 40%nat.
  by_candidates w.
Qed.

(** C2: when none of the five candidates exists the locator does not
    return [NULL]: its loop runs on to index 5 and reads past the end of
    the array. *)
Theorem locator_overruns_when_none_exists : forall w,
  (forall p, In p g_thermal_path_list -> w_stat w p = false) ->
  ccputemp_get_thermal_path w = PathOverrun 5 /\
  ccputemp_get_thermal_path w <> PathNull.
Proof.
  intros w H. apply first_existing_none in H.
  rewrite (locator_overrun w H). split; [reflexivity | discriminate].
Qed.

Lemma locator_overruns_when_none_exists_witness :
  ccputemp_get_thermal_path bare_machine = PathOverrun 5 /\
  ccputemp_get_thermal_path bare_machine <> PathNull.
Proof.
  apply (locator_overruns_when_none_exists bare_machine).
  intros p _. reflexivity.
Defined.

(** The locator never returns [NULL] at all. *)
Lemma locator_never_null : forall w, ccputemp_get_thermal_path w <> PathNull.
Proof.
  intro w. destruct (first_existing w) as [p|] eqn:E.
  - rewrite (locator_first_existing w p E). discriminate.
  - rewrite (locator_overrun w E). discriminate.
Qed.

(** C3: the loop bound is the size of the array in bytes, 40, not its
    number of entries, 5; when no candidate exists the indices read are
    0 to 5, the last one outside the array. *)
Theorem locator_reads_past_the_array : forall w,
  (forall p, In p g_thermal_path_list -> w_stat w p = false) ->
  g_thermal_path_list_len <> Z.of_nat (List.length g_thermal_path_list) /\
  ccputemp_get_thermal_path_reads w = [0; 1; 2; 3; 4; 5]%nat /\
  nth_error g_thermal_path_list 5 = None.
Proof.
  intros w H. apply first_existing_none in H.
  split; [discriminate|]. split; [|reflexivity].
  revert H. unfold first_existing, ccputemp_get_thermal_path_reads.
  change (Z.to_nat g_thermal_path_list_len) with 40%nat.
  by_candidates w.
Qed.

Lemma locator_reads_past_the_array_witness :
  g_thermal_path_list_len <> Z.of_nat (List.length g_thermal_path_list) /\
  ccputemp_get_thermal_path_reads bare_machine = [0; 1; 2; 3; 4; 5]%nat /\
  nth_error g_thermal_path_list 5 = None.
Proof.
  apply (locator_reads_past_the_array bare_machine).
  intros p _. reflexivity.
Defined.

(** When a candidate exists, every index read is inside the array. *)
Lemma locator_reads_in_bounds : forall w p,
  first_existing w = Some p ->
  Forall (fun i => (i < 5)%nat) (ccputemp_get_thermal_path_reads w).
Proof.
  intros w p. unfold first_existing, ccputemp_get_thermal_path_reads.
  change (Z.to_nat g_thermal_path_list_len) with 40%nat.
  by_candidates w; intros _; repeat constructor.
Qed.

(** ** The logger *)

Lemma bind_emit : forall (A : Type) (e : event) (k : run A),
  (emit e ;;; k) = (e :: fst k, snd k).
Proof. intros A e [tr r]. reflexivity. Qed.

Lemma bind_ret : forall (A B : Type) (a : A) (k : A -> run B),
  bind (ret a) k = k a.
Proof. intros A B a k. unfold bind, ret. destruct (k a). reflexivity. Qed.

(** A log file that does not exist is reported and left alone: the
    logger does not call [fopen], which would create it. *)
Lemma do_log_missing : forall w f avg lo hi unit secs,
  w_stat w f = false ->
  ccputemp_do_log w (Some f) avg lo hi unit secs = ([ELogMissing f], Ret tt).
Proof.
  intros w f avg lo hi unit secs H. unfold ccputemp_do_log.
  rewrite H. reflexivity.
Qed.

(** X15: the logger calls [fopen] only on a file that [stat] finds, so it
    never creates the log file. *)
Lemma do_log_never_creates : forall w filename avg lo hi unit secs f,
  In (EFopenAppend f) (fst (ccputemp_do_log w filename avg lo hi unit secs)) ->
  w_stat w f = true.
Proof.
  intros w [g|] avg lo hi unit secs f; cbn [ccputemp_do_log].
  - destruct (w_stat w g) eqn:S; cbn [negb].
    + destruct (w_fopen_a w g); cbn; intros [H|H];
        try (injection H as <-; exact S);
        repeat (destruct H as [H|H]; try discriminate H); contradiction.
    + cbn. intros [H|[]]. discriminate H.
  - intros [].
Qed.

Lemma do_log_appends : forall w f avg lo hi unit secs,
  w_stat w f = true -> w_fopen_a w f = true ->
  ccputemp_do_log w (Some f) avg lo hi unit secs =
  ([EFopenAppend f;
    ELogBlock f (w_time w) secs hi lo avg (ccputemp_temp_unit_t_to_str unit);
    ELogUpdated], Ret tt).
Proof.
  intros w f avg lo hi unit secs S A. unfold ccputemp_do_log.
  rewrite S, A. reflexivity.
Qed.

(** C8: when the log file exists but cannot be opened for append, the
    logger prints its diagnostic and, instead of returning, goes on to
    [fprintf] on the null stream. *)
Theorem do_log_unopenable_faults : forall w f avg lo hi unit secs,
  w_stat w f = true -> w_fopen_a w f = false ->
  ccputemp_do_log w (Some f) avg lo hi unit secs =
  ([EFopenAppend f; ELogCannotOpen f], Fault NullStream).
Proof.
  intros w f avg lo hi unit secs S A. unfold ccputemp_do_log.
  rewrite S, A. reflexivity.
Qed.

Lemma do_log_unopenable_faults_witness :
  ccputemp_do_log (machine (line "45000"%string) true true false)
    (Some g_default_log_file) (F32.of_Z 45) (F32.of_Z 45) (F32.of_Z 45)
    CELSIUS 2 =
  ([EFopenAppend g_default_log_file; ELogCannotOpen g_default_log_file],
   Fault NullStream).
Proof.
  apply (do_log_unopenable_faults
           (machine (line "45000"%string) true true false)); reflexivity.
Defined.

(** ** Traces *)

Lemma ticks_app : forall a b, ticks (a ++ b) = (ticks a + ticks b)%nat.
Proof.
  intros a b. unfold ticks. rewrite filter_app, length_app. reflexivity.
Qed.

Lemma ticks_tick_trace : forall unit l st,
  ticks (tick_trace unit l st) = List.length l.
Proof.
  intros unit l. induction l as [|v l IH]; intro st; [reflexivity|].
  cbn [tick_trace]. change (ticks (?a :: ESleep :: ?t)) with (S (ticks t)).
  rewrite IH. reflexivity.
Qed.

Lemma tick_trace_no_report : forall unit l st,
  Forall (fun e => is_report e = false) (tick_trace unit l st).
Proof.
  intros unit l. induction l as [|v l IH]; intro st; cbn [tick_trace].
  - constructor.
  - constructor; [reflexivity|]. constructor; [reflexivity|]. apply IH.
Qed.

Lemma prompt_loop_trace : forall stdin,
  Forall (fun e => e = EPrompt) (fst (prompt_loop stdin)).
Proof.
  induction stdin as [|ch rest IH]; cbn [prompt_loop].
  - repeat constructor.
  - rewrite bind_emit. cbn [fst]. constructor; [reflexivity|].
    destruct (is_unit_char (tolower ch)); [constructor | exact IH].
Qed.

Lemma choose_unit_trace : forall stdin opt_unit unit,
  Forall (fun e => e = EPrompt) (fst (choose_unit stdin opt_unit unit)).
Proof.
  intros stdin opt_unit unit. unfold choose_unit.
  destruct (opt_unit =? 0); [|constructor].
  pose proof (prompt_loop_trace stdin) as H.
  destruct (prompt_loop stdin) as [tr [c| | |]]; cbn [bind ret fst] in *;
    try exact H.
  rewrite app_nil_r. exact H.
Qed.

Lemma prompts_are_silent : forall tr,
  Forall (fun e => e = EPrompt) tr ->
  ticks tr = 0%nat /\ Forall (fun e => is_report e = false) tr.
Proof.
  induction 1 as [|e tr He _ [IH1 IH2]]; [split; constructor|].
  subst e. split; [exact IH1|]. constructor; [reflexivity | exact IH2].
Qed.

(** The unit prompt is answered as soon as the input holds one of the
    letters c, f and k, in either case. *)
Lemma prompt_loop_answered : forall stdin,
  existsb (fun ch => is_unit_char (tolower ch)) stdin = true ->
  exists tr c, prompt_loop stdin = (tr, Ret c) /\ is_unit_char c = true.
Proof.
  induction stdin as [|ch rest IH]; cbn [existsb prompt_loop]; [discriminate|].
  intro H. rewrite bind_emit.
  destruct (is_unit_char (tolower ch)) eqn:E.
  - exists [EPrompt], (tolower ch). split; [reflexivity | exact E].
  - cbn [orb] in H. destruct (IH H) as (tr & c & Hp & Hc).
    exists (EPrompt :: tr), c. rewrite Hp. split; [reflexivity | exact Hc].
Qed.

(** ** The sampling loops *)

Lemma readable_sample : forall src unit w,
  readable src w ->
  ccputemp_get_unit_temp_from_file w (Some src) unit =
  Some (sample_of src unit w).
Proof.
  intros src unit w H. unfold sample_of, ccputemp_get_unit_temp_from_file.
  unfold readable in H.
  destruct (ccputemp_get_thermal_value_from_file w (Some src));
    [reflexivity | contradiction].
Qed.

Lemma unreadable_sample : forall src unit w,
  ccputemp_get_thermal_value_from_file w (Some src) = None ->
  ccputemp_get_unit_temp_from_file w (Some src) unit = None.
Proof.
  intros src unit w H. unfold ccputemp_get_unit_temp_from_file.
  rewrite H. reflexivity.
Qed.

Lemma to_size_t_small : forall z, 0 <= z < 2 ^ 64 -> to_size_t z = z.
Proof. intros z H. unfold to_size_t. apply Z.mod_small. exact H. Qed.

Lemma to_size_t_bound : forall z, 0 <= to_size_t z < 2 ^ 64.
Proof. intro z. unfold to_size_t. apply Z.mod_pos_bound. reflexivity. Qed.

(** Ticks of normal mode: as long as no SIGINT is seen, the reads
    succeed and the bound, if any, is not reached, the loop prints one
    line per sample and goes on with the updated locals. *)
Lemma normal_loop_ticks : forall src unit seconds opt_seconds ws st rest,
  Forall (calm src) ws ->
  opt_seconds = 0 \/
    (0 <= st_i st /\
     st_i st + Z.of_nat (List.length ws) <= to_size_t seconds) ->
  normal_loop (ws ++ rest) src unit seconds opt_seconds st =
  (tick_trace unit (samples src unit ws) st ++
     fst (normal_loop rest src unit seconds opt_seconds
            (stats_after (samples src unit ws) st)),
   snd (normal_loop rest src unit seconds opt_seconds
          (stats_after (samples src unit ws) st))).
Proof.
  intros src unit seconds opt_seconds ws.
  induction ws as [|w ws IH]; intros st rest Hc Hb.
  - cbn [app samples map tick_trace stats_after fold_left].
    destruct (normal_loop rest src unit seconds opt_seconds st); reflexivity.
  - inversion Hc as [|? ? [Hs Hr] Hc']; subst.
    cbn [app normal_loop]. rewrite Hs.
    assert (G : (negb (opt_seconds =? 0) &&
                 (to_size_t seconds <=? st_i st))%bool = false).
    { destruct Hb as [->|[H0 H1]]; [reflexivity|].
      apply andb_false_intro2. apply Z.leb_gt.
      cbn [List.length] in H1. lia. }
    rewrite G, (readable_sample src unit w Hr), !bind_emit.
    cbn [fst snd samples map tick_trace stats_after fold_left].
    rewrite IH; [reflexivity | exact Hc' |].
    destruct Hb as [->|[H0 H1]]; [left; reflexivity | right].
    cbn [stats_update st_i]. cbn [List.length] in H1.
    pose proof (to_size_t_bound seconds).
    rewrite to_size_t_small by lia. lia.
Qed.

Lemma stats_after_sum : forall l st,
  st_sum (stats_after l st) = fold_left F32.add l (st_sum st).
Proof.
  induction l as [|v l IH]; intro st; [reflexivity|].
  cbn [stats_after fold_left]. apply IH.
Qed.

Lemma stats_after_max : forall l st,
  st_max (stats_after l st) = fold_left Macro.max l (st_max st).
Proof.
  induction l as [|v l IH]; intro st; [reflexivity|].
  cbn [stats_after fold_left]. apply IH.
Qed.

Lemma stats_after_min : forall l st,
  st_min (stats_after l st) = fold_left Macro.min l (st_min st).
Proof.
  induction l as [|v l IH]; intro st; [reflexivity|].
  cbn [stats_after fold_left]. apply IH.
Qed.

Lemma stats_after_count : forall l st,
  0 <= st_i st -> st_i st + Z.of_nat (List.length l) < 2 ^ 64 ->
  st_i (stats_after l st) = st_i st + Z.of_nat (List.length l).
Proof.
  induction l as [|v l IH]; intros st H0 H1.
  - cbn. lia.
  - cbn [stats_after fold_left]. cbn [List.length] in H1.
    change (fold_left stats_update l (stats_update st v))
      with (stats_after l (stats_update st v)).
    assert (E : st_i (stats_update st v) = st_i st + 1)
      by (cbn [stats_update st_i]; apply to_size_t_small; lia).
    rewrite IH; rewrite E; cbn [List.length]; lia.
Qed.

Lemma normal_finish_ticks : forall w unit st,
  ticks (fst (normal_finish w unit st)) = 0%nat.
Proof.
  intros w unit st. unfold normal_finish, ccputemp_do_log.
  destruct (0 <? st_i st); [|reflexivity].
  destruct (w_stat w g_default_log_file); [|reflexivity].
  destruct (w_fopen_a w g_default_log_file); reflexivity.
Qed.

Lemma normal_finish_result : forall w unit st,
  snd (normal_finish w unit st) = Ret 0 \/
  snd (normal_finish w unit st) = Fault NullStream.
Proof.
  intros w unit st. unfold normal_finish, ccputemp_do_log.
  destruct (0 <? st_i st); [|left; reflexivity].
  destruct (w_stat w g_default_log_file); [|left; reflexivity].
  destruct (w_fopen_a w g_default_log_file);
    [left; reflexivity | right; reflexivity].
Qed.

Lemma normal_finish_summary : forall w unit st,
  0 < st_i st ->
  summary_of (fst (normal_finish w unit st)) =
  Some (st_max st, st_min st,
        F32.div (st_sum st) (F32.of_Z (to_size_t (st_i st + 1)))).
Proof.
  intros w unit st H. unfold normal_finish.
  apply Z.ltb_lt in H. rewrite H.
  destruct (ccputemp_do_log _ _ _ _ _ _ _) as [lg [[]| | |]]; reflexivity.
Qed.

Lemma normal_finish_empty : forall w unit st,
  st_i st = 0 -> normal_finish w unit st = ([ENotEnough], Ret 0).
Proof. intros w unit st H. unfold normal_finish. rewrite H. reflexivity. Qed.

Lemma summary_of_skip : forall a b,
  Forall (fun e => is_report e = false) a ->
  summary_of (a ++ b) = summary_of b.
Proof.
  induction 1 as [|e a He _ IH]; [reflexivity|].
  cbn [app]. destruct e; try discriminate He; exact IH.
Qed.

Lemma average_of_skip : forall a b,
  Forall (fun e => is_report e = false) a ->
  average_of (a ++ b) = average_of b.
Proof.
  induction 1 as [|e a He _ IH]; [reflexivity|].
  cbn [app]. destruct e; try discriminate He; exact IH.
Qed.

(** [ccputemp_do_normal] once the source is found and the unit known. *)
Lemma do_normal_located : forall w0 ws stdin opt_unit unit seconds opt_seconds
                                 src ptr u,
  ccputemp_get_thermal_path w0 = PathFound src ->
  choose_unit stdin opt_unit unit = (ptr, Ret u) ->
  ccputemp_do_normal w0 ws stdin opt_unit unit seconds opt_seconds =
  (EVersion :: ptr ++
     fst (normal_loop ws src u
            (if (negb (opt_seconds =? 0) && (seconds <? 1))%bool
             then g_default_runtime_secs else seconds)
            opt_seconds stats_init),
   snd (normal_loop ws src u
          (if (negb (opt_seconds =? 0) && (seconds <? 1))%bool
           then g_default_runtime_secs else seconds)
          opt_seconds stats_init)).
Proof.
  intros w0 ws stdin opt_unit unit seconds opt_seconds src ptr u Hp Hu.
  unfold ccputemp_do_normal, locate. rewrite Hp, bind_ret, bind_emit, Hu.
  cbn [bind fst snd].
  destruct (normal_loop _ _ _ _ _ _); reflexivity.
Qed.

Lemma do_avg_located : forall w0 ws opt_unit unit seconds src,
  ccputemp_get_thermal_path w0 = PathFound src ->
  ccputemp_do_avg w0 ws opt_unit unit seconds =
  (EVersion ::
     fst (avg_loop ws src unit (effective_seconds seconds) 0 F32.zero),
   snd (avg_loop ws src unit (effective_seconds seconds) 0 F32.zero)).
Proof.
  intros w0 ws opt_unit unit seconds src Hp.
  unfold ccputemp_do_avg, locate. rewrite Hp, bind_ret, bind_emit.
  reflexivity.
Qed.

Lemma avg_loop_done : forall ws src unit seconds i sum,
  to_size_t seconds <= i ->
  avg_loop ws src unit seconds i sum =
  ([EAverage (F32.div sum (F32.of_Z seconds))
             (ccputemp_temp_unit_t_to_str unit)], Ret 0).
Proof.
  intros ws src unit seconds i sum H. apply Z.ltb_ge in H.
  destruct ws; cbn [avg_loop]; rewrite H; reflexivity.
Qed.

(** Ticks of average mode: while the reads succeed and the bound is not
    reached, the loop adds the sample and sleeps. *)
Lemma avg_loop_ticks : forall src unit seconds ws i sum rest,
  Forall (readable src) ws ->
  0 <= i -> i + Z.of_nat (List.length ws) <= to_size_t seconds ->
  avg_loop (ws ++ rest) src unit seconds i sum =
  (repeat ESleep (List.length ws) ++
     fst (avg_loop rest src unit seconds (i + Z.of_nat (List.length ws))
            (fold_left F32.add (samples src unit ws) sum)),
   snd (avg_loop rest src unit seconds (i + Z.of_nat (List.length ws))
          (fold_left F32.add (samples src unit ws) sum))).
Proof.
  intros src unit seconds ws.
  induction ws as [|w ws IH]; intros i sum rest Hr H0 H1.
  - cbn [app List.length repeat samples map fold_left Z.of_nat].
    rewrite Z.add_0_r.
    destruct (avg_loop rest src unit seconds i sum); reflexivity.
  - inversion Hr as [|? ? Hw Hr']; subst.
    cbn [List.length] in H1. cbn [app avg_loop].
    assert (G : (i <? to_size_t seconds) = true) by (apply Z.ltb_lt; lia).
    rewrite G, (readable_sample src unit w Hw), bind_emit.
    pose proof (to_size_t_bound seconds).
    rewrite (to_size_t_small (i + 1)) by lia.
    rewrite IH by (try assumption; lia).
    cbn [fst snd List.length repeat app samples map fold_left].
    replace (i + 1 + Z.of_nat (List.length ws))
      with (i + Z.of_nat (S (List.length ws))) by lia.
    reflexivity.
Qed.

Lemma ticks_repeat_sleep : forall n, ticks (repeat ESleep n) = n.
Proof. induction n as [|n IH]; [reflexivity|]. cbn. f_equal. exact IH. Qed.

Lemma repeat_sleep_no_report : forall n,
  Forall (fun e => is_report e = false) (repeat ESleep n).
Proof. induction n; cbn; constructor; [reflexivity | assumption]. Qed.

(** ** The default duration *)

(** In average mode a duration below 1 stands for the default of 5. *)
Lemma do_avg_default_duration : forall w0 ws opt_unit unit seconds,
  seconds < 1 ->
  ccputemp_do_avg w0 ws opt_unit unit seconds =
  ccputemp_do_avg w0 ws opt_unit unit g_default_runtime_secs.
Proof.
  intros w0 ws opt_unit unit seconds H. unfold ccputemp_do_avg.
  apply Z.ltb_lt in H. rewrite H. reflexivity.
Qed.

(** ** Read failures *)

(** C7: when the read fails at a tick that follows any number of
    successful ticks, normal mode returns -1 at once; after the lines of
    the earlier ticks it prints the read error only: no summary, no
    "not enough measurements" line, and the logger is not called. *)
Theorem read_failure_aborts_run :
  forall w0 src ws w_fail rest stdin opt_unit unit ptr u seconds opt_seconds,
  ccputemp_get_thermal_path w0 = PathFound src ->
  choose_unit stdin opt_unit unit = (ptr, Ret u) ->
  Forall (calm src) ws ->
  w_sigint w_fail = false ->
  ccputemp_get_thermal_value_from_file w_fail (Some src) = None ->
  seconds < 2 ^ 31 ->
  opt_seconds = 0 \/ Z.of_nat (List.length ws) < effective_seconds seconds ->
  ccputemp_do_normal w0 (ws ++ w_fail :: rest) stdin opt_unit unit
                     seconds opt_seconds =
  (EVersion :: ptr ++ tick_trace u (samples src u ws) stats_init ++
     [EReadError src], Ret (-1)) /\
  Forall (fun e => is_report e = false)
         (fst (ccputemp_do_normal w0 (ws ++ w_fail :: rest) stdin opt_unit unit
                                  seconds opt_seconds)).
Proof.
  intros w0 src ws w_fail rest stdin opt_unit unit ptr u seconds opt_seconds
         Hp Hu Hc Hs Hf Hi Hb.
  set (s := if (negb (opt_seconds =? 0) && (seconds <? 1))%bool
            then g_default_runtime_secs else seconds).
  assert (Hb' : opt_seconds = 0 \/
                (Z.of_nat (List.length ws) < s /\ to_size_t s = s)).
  { destruct Hb as [->|Hb]; [left; reflexivity|].
    destruct (Z.eq_dec opt_seconds 0) as [E|E]; [left; exact E | right].
    apply Z.eqb_neq in E. unfold s, effective_seconds in *. rewrite E.
    cbn [negb andb]. unfold g_default_runtime_secs in *.
    destruct (seconds <? 1) eqn:L; (split; [exact Hb|]);
      apply to_size_t_small.
    - lia.
    - apply Z.ltb_ge in L. lia. }
  assert (E : ccputemp_do_normal w0 (ws ++ w_fail :: rest) stdin opt_unit unit
                seconds opt_seconds =
              (EVersion :: ptr ++ tick_trace u (samples src u ws) stats_init ++
                 [EReadError src], Ret (-1))).
  { rewrite (do_normal_located _ _ _ _ _ _ _ _ _ _ Hp Hu). fold s.
    rewrite normal_loop_ticks
      by (first [ assumption
                | destruct Hb' as [->|[H1 H2]];
                  [left; reflexivity | right; cbn [stats_init st_i]; lia] ]).
    cbn [normal_loop]. rewrite Hs.
    assert (G : (negb (opt_seconds =? 0) &&
                 (to_size_t s <=?
                  st_i (stats_after (samples src u ws) stats_init)))%bool
                = false).
    { destruct Hb' as [->|[H1 H2]]; [reflexivity|].
      apply andb_false_intro2. apply Z.leb_gt.
      pose proof (to_size_t_bound s).
      rewrite stats_after_count;
        unfold samples; rewrite ?length_map; cbn [stats_init st_i]; lia. }
    rewrite G, (unreadable_sample src u w_fail Hf), bind_emit.
    reflexivity. }
  split; [exact E|]. rewrite E. cbn [fst].
  constructor; [reflexivity|].
  apply Forall_app. split.
  - apply prompts_are_silent.
    pose proof (choose_unit_trace stdin opt_unit unit) as T.
    rewrite Hu in T. exact T.
  - apply Forall_app. split; [apply tick_trace_no_report|].
    constructor; [reflexivity | constructor].
Qed.

Lemma read_failure_aborts_run_witness :
  let m := machine (line "45000"%string) false true true in
  ccputemp_do_normal m ([m; m] ++ locked_machine :: [m]) [] 1 CELSIUS 5 1 =
  (EVersion :: [] ++
     tick_trace CELSIUS (samples thm0 CELSIUS [m; m]) stats_init ++
     [EReadError thm0], Ret (-1)) /\
  Forall (fun e => is_report e = false)
         (fst (ccputemp_do_normal m ([m; m] ++ locked_machine :: [m]) []
                                  1 CELSIUS 5 1)).
Proof.
  intro m.
  apply (read_failure_aborts_run m thm0 [m; m] locked_machine [m] []
           1 CELSIUS [] CELSIUS 5 1).
  - reflexivity.
  - reflexivity.
  - repeat constructor; unfold readable; vm_compute; discriminate.
  - reflexivity.
  - reflexivity.
  - lia.
  - right. vm_compute. reflexivity.
Defined.

(** X20: when a read fails in average mode after any number of
    successful reads, the run returns -1 at once and prints no average. *)
Lemma avg_read_failure_aborts_run :
  forall w0 src ws w_fail rest opt_unit unit seconds,
  ccputemp_get_thermal_path w0 = PathFound src ->
  Forall (readable src) ws ->
  ccputemp_get_thermal_value_from_file w_fail (Some src) = None ->
  seconds < 2 ^ 31 ->
  Z.of_nat (List.length ws) < effective_seconds seconds ->
  ccputemp_do_avg w0 (ws ++ w_fail :: rest) opt_unit unit seconds =
  (EVersion :: repeat ESleep (List.length ws) ++ [EReadError src], Ret (-1)).
Proof.
  intros w0 src ws w_fail rest opt_unit unit seconds Hp Hr Hf Hi Hb.
  rewrite (do_avg_located _ _ _ _ _ _ Hp).
  assert (Hs : to_size_t (effective_seconds seconds) = effective_seconds seconds).
  { apply to_size_t_small. unfold effective_seconds, g_default_runtime_secs in *.
    destruct (seconds <? 1) eqn:L; [lia|]. apply Z.ltb_ge in L. lia. }
  rewrite avg_loop_ticks by (try assumption; lia).
  cbn [avg_loop].
  assert (G : (0 + Z.of_nat (List.length ws) <?
               to_size_t (effective_seconds seconds)) = true)
    by (apply Z.ltb_lt; lia).
  rewrite G, (unreadable_sample src unit w_fail Hf), bind_emit.
  reflexivity.
Qed.

(** ** The reported statistics *)

(** What normal mode reports after the samples of [ws]: the folds of the
    [max] and [min] macros from [FLT_MIN] and [FLT_MAX], and the sum
    divided by the number of samples plus one. *)
Lemma normal_loop_summary :
  forall src unit seconds opt_seconds ws w_end rest,
  Forall (calm src) ws ->
  ws <> [] ->
  Z.of_nat (List.length ws) + 1 < 2 ^ 64 ->
  opt_seconds = 0 \/ Z.of_nat (List.length ws) <= to_size_t seconds ->
  w_sigint w_end = true \/
    (opt_seconds <> 0 /\ to_size_t seconds <= Z.of_nat (List.length ws)) ->
  summary_of (fst (normal_loop (ws ++ w_end :: rest) src unit seconds
                               opt_seconds stats_init)) =
  Some (fold_left Macro.max (samples src unit ws) F32.FLT_MIN,
        fold_left Macro.min (samples src unit ws) F32.FLT_MAX,
        F32.div (fsum (samples src unit ws))
                (F32.of_Z (Z.of_nat (List.length ws) + 1))).
Proof.
  intros src unit seconds opt_seconds ws w_end rest Hc Hne Hl Hb He.
  rewrite normal_loop_ticks
    by (first [ assumption
              | destruct Hb as [->|Hb];
                [left; reflexivity | right; cbn [stats_init st_i]; lia] ]).
  cbn [fst]. rewrite summary_of_skip by apply tick_trace_no_report.
  set (st := stats_after (samples src unit ws) stats_init).
  assert (Hi : st_i st = Z.of_nat (List.length ws)).
  { unfold st. rewrite stats_after_count;
      unfold samples; rewrite ?length_map; cbn [stats_init st_i]; lia. }
  assert (E : normal_loop (w_end :: rest) src unit seconds opt_seconds st =
              normal_finish w_end unit st).
  { cbn [normal_loop]. destruct (w_sigint w_end); [reflexivity|].
    destruct He as [He|[Ho He]]; [discriminate He|].
    apply Z.eqb_neq in Ho. rewrite Ho, Hi. cbn [negb andb].
    apply Z.leb_le in He. rewrite He. reflexivity. }
  rewrite E, normal_finish_summary.
  - unfold st at 1 2 3.
    rewrite stats_after_max, stats_after_min, stats_after_sum, Hi.
    rewrite to_size_t_small by lia. reflexivity.
  - rewrite Hi. destruct ws; [contradiction | cbn [List.length]; lia].
Qed.

(** X18: what average mode reports after the samples of [ws]: their sum
    divided by their number. *)
Lemma do_avg_average : forall w0 src ws rest opt_unit unit seconds,
  ccputemp_get_thermal_path w0 = PathFound src ->
  Forall (readable src) ws ->
  1 <= seconds < 2 ^ 31 ->
  Z.of_nat (List.length ws) = seconds ->
  ccputemp_do_avg w0 (ws ++ rest) opt_unit unit seconds =
  (EVersion :: repeat ESleep (List.length ws) ++
     [EAverage (F32.div (fsum (samples src unit ws))
                        (F32.of_Z (Z.of_nat (List.length ws))))
               (ccputemp_temp_unit_t_to_str unit)], Ret 0).
Proof.
  intros w0 src ws rest opt_unit unit seconds Hp Hr Hs Hl.
  rewrite (do_avg_located _ _ _ _ _ _ Hp).
  assert (He : effective_seconds seconds = seconds)
    by (unfold effective_seconds; destruct (Z.ltb_spec seconds 1);
        [lia | reflexivity]).
  rewrite He.
  assert (Hsz : to_size_t seconds = seconds) by (apply to_size_t_small; lia).
  rewrite avg_loop_ticks by (try assumption; lia).
  rewrite avg_loop_done by lia.
  cbn [fst snd]. rewrite Hl. reflexivity.
Qed.

(** C1: a normal-mode run that collects the single sample 45 reports the
    average 22.5: after the loop the sum is divided by [i + 1], one more
    than the number of samples.  Average mode reports 45 for the same
    sample. *)
Theorem normal_average_off_by_one :
  let m := machine (line "45000"%string) false true true in
  let stop := machine (line "45000"%string) true true true in
  samples thm0 CELSIUS [m] = [F32.of_Z 45] /\
  summary_of (fst (ccputemp_do_normal m [m; stop] [] 1 CELSIUS 0 0)) =
    Some (F32.of_Z 45, F32.of_Z 45,
          F32.div (fsum [F32.of_Z 45]) (F32.of_Z 2)) /\
  F32.div (fsum [F32.of_Z 45]) (F32.of_Z 2) <>
  F32.div (fsum [F32.of_Z 45]) (F32.of_Z 1) /\
  (F32.to_Q (F32.div (fsum [F32.of_Z 45]) (F32.of_Z 2)) == 45 # 2)%Q /\
  average_of (fst (ccputemp_do_avg m [m] 1 CELSIUS 1)) =
    Some (F32.div (fsum [F32.of_Z 45]) (F32.of_Z 1)).
Proof.
  cbv zeta.
  split; [vm_compute; reflexivity|].
  split; [vm_compute; reflexivity|].
  split; [vm_compute; discriminate|].
  split; [vm_compute; reflexivity|].
  vm_compute; reflexivity.
Qed.

Lemma max_keeps_flt_min : forall x,
  F32.le x F32.zero = true -> Macro.max F32.FLT_MIN x = F32.FLT_MIN.
Proof.
  intros [s|s| |s m e] H; try destruct s;
    try (vm_compute in H; discriminate H); reflexivity.
Qed.

(** X10: a run whose samples are all zero or below reports [FLT_MIN], the
    smallest positive normal [float], as its highest temperature. *)
Lemma highest_of_nonpositive_samples : forall l,
  Forall (fun x => F32.le x F32.zero = true) l ->
  st_max (stats_after l stats_init) = F32.FLT_MIN /\
  Forall (fun x => F32.lt x (st_max (stats_after l stats_init)) = true) l.
Proof.
  intros l H.
  assert (E : st_max (stats_after l stats_init) = F32.FLT_MIN).
  { rewrite stats_after_max. cbn [stats_init st_max].
    induction H as [|x l Hx _ IH]; [reflexivity|].
    cbn [fold_left]. rewrite (max_keeps_flt_min x Hx). exact IH. }
  split; [exact E|]. rewrite E.
  eapply Forall_impl; [|exact H].
  intros [s|s| |s m e] Hx; try destruct s;
    try (vm_compute in Hx; discriminate Hx); reflexivity.
Qed.

(** C6: the locals start at [FLT_MAX] and [FLT_MIN], and
    a normal-mode run that collects the single sample -5 reports
    [FLT_MIN], about 1.18e-38, as the highest temperature, a value
    above the only sample. *)
Theorem highest_of_negative_run :
  let m := machine (line "-5000"%string) false true true in
  let stop := machine (line "-5000"%string) true true true in
  st_min stats_init = F32.FLT_MAX /\ st_max stats_init = F32.FLT_MIN /\
  samples thm0 CELSIUS [m] = [F32.of_Z (-5)] /\
  option_map (fun s => fst (fst s))
    (summary_of (fst (ccputemp_do_normal m [m; stop] [] 1 CELSIUS 0 0))) =
    Some F32.FLT_MIN /\
  F32.lt (F32.of_Z (-5)) F32.FLT_MIN = true /\
  F32.FLT_MIN <> F32.of_Z (-5) /\
  (0 < F32.to_Q F32.FLT_MIN)%Q.
Proof.
  cbv zeta.
  split; [reflexivity|].
  split; [reflexivity|].
  split; [vm_compute; reflexivity|].
  split; [vm_compute; reflexivity|].
  split; [vm_compute; reflexivity|].
  split; [vm_compute; discriminate|].
  vm_compute; reflexivity.
Qed.

(** ** The order of [float] values and the running bounds *)

Ltac order_cases :=
  repeat match goal with
         | |- context [Pos.compare_cont Eq ?a ?b] =>
             progress change (Pos.compare_cont Eq a b) with (Pos.compare a b)
         | H : context [Pos.compare_cont Eq ?a ?b] |- _ =>
             progress change (Pos.compare_cont Eq a b)
               with (Pos.compare a b) in H
         end;
  repeat match goal with
         | |- context [Z.compare ?a ?b] => destruct (Z.compare_spec a b)
         | |- context [Pos.compare ?a ?b] => destruct (Pos.compare_spec a b)
         | H : context [Z.compare ?a ?b] |- _ => destruct (Z.compare_spec a b)
         | H : context [Pos.compare ?a ?b] |- _ =>
             destruct (Pos.compare_spec a b)
         end.

Lemma le_refl : forall x, F32.is_nan x = false -> F32.le x x = true.
Proof.
  intros [s|s| |s m e] H; try discriminate H; destruct s;
    unfold F32.le, SFleb, SFcompare; try reflexivity;
    order_cases; try reflexivity; lia.
Qed.

Lemma lt_le : forall x y, F32.lt x y = true -> F32.le x y = true.
Proof.
  intros x y. unfold F32.lt, F32.le, SFltb, SFleb.
  destruct (SFcompare x y) as [[| |]|]; congruence.
Qed.

Lemma not_lt_le : forall x y,
  F32.is_nan x = false -> F32.is_nan y = false ->
  F32.lt x y = false -> F32.le y x = true.
Proof.
  intros [s|s| |s m e] [s'|s'| |s' m' e'] Hx Hy;
    try discriminate Hx; try discriminate Hy;
    destruct s, s'; unfold F32.lt, F32.le, SFltb, SFleb, SFcompare;
    try reflexivity; try discriminate;
    intro H; order_cases; subst; cbn [CompOpp] in *;
    try reflexivity; try discriminate; try lia.
Qed.

Lemma le_trans : forall x y z,
  F32.le x y = true -> F32.le y z = true -> F32.le x z = true.
Proof.
  intros [s|s| |s m e] [s'|s'| |s' m' e'] [s''|s''| |s'' m'' e''];
    try destruct s; try destruct s'; try destruct s'';
    unfold F32.le, SFleb, SFcompare; try reflexivity; try discriminate;
    intros H1 H2; order_cases; subst; cbn [CompOpp] in *;
    try reflexivity; try discriminate; try lia.
Qed.

Lemma macro_min_spec : forall a b,
  F32.is_nan a = false -> F32.is_nan b = false ->
  F32.le (Macro.min a b) a = true /\ F32.le (Macro.min a b) b = true /\
  F32.is_nan (Macro.min a b) = false /\
  (Macro.min a b = a \/ Macro.min a b = b).
Proof.
  intros a b Ha Hb. unfold Macro.min. destruct (F32.lt a b) eqn:E.
  - repeat split; auto using le_refl, lt_le.
  - repeat split; auto using le_refl, not_lt_le.
Qed.

Lemma macro_max_spec : forall a b,
  F32.is_nan a = false -> F32.is_nan b = false ->
  F32.le a (Macro.max a b) = true /\ F32.le b (Macro.max a b) = true /\
  F32.is_nan (Macro.max a b) = false /\
  (Macro.max a b = a \/ Macro.max a b = b).
Proof.
  intros a b Ha Hb. unfold Macro.max, F32.gt. fold (F32.lt b a).
  destruct (F32.lt b a) eqn:E.
  - repeat split; auto using le_refl, lt_le.
  - repeat split; auto using le_refl, not_lt_le.
Qed.

(** The invariant of the running statistics: after any samples that are
    numbers, [temp_min] is at most each of them and [temp_max] at least
    each of them; both are the initial value or one of the samples. *)
Lemma stats_bounds : forall l st,
  Forall (fun x => F32.is_nan x = false) l ->
  F32.is_nan (st_min st) = false -> F32.is_nan (st_max st) = false ->
  Forall (fun x => F32.le (st_min (stats_after l st)) x = true /\
                   F32.le x (st_max (stats_after l st)) = true) l /\
  F32.le (st_min (stats_after l st)) (st_min st) = true /\
  F32.le (st_max st) (st_max (stats_after l st)) = true /\
  In (st_min (stats_after l st)) (st_min st :: l) /\
  In (st_max (stats_after l st)) (st_max st :: l).
Proof.
  induction l as [|v l IH]; intros st Hl Hmin Hmax.
  - cbn [stats_after fold_left]. repeat split; auto using le_refl.
    + left; reflexivity.
    + left; reflexivity.
  - inversion Hl as [|? ? Hv Hl']; subst.
    destruct (macro_min_spec (st_min st) v Hmin Hv) as (N1 & N2 & N3 & N4).
    destruct (macro_max_spec (st_max st) v Hmax Hv) as (X1 & X2 & X3 & X4).
    destruct (IH (stats_update st v) Hl' N3 X3) as (B & Bmin & Bmax & Imin & Imax).
    cbn [stats_after fold_left].
    change (fold_left stats_update l (stats_update st v))
      with (stats_after l (stats_update st v)).
    cbn [stats_update st_min st_max] in Bmin, Bmax, Imin, Imax.
    repeat split.
    + constructor; [|exact B]. split.
      * exact (le_trans _ _ _ Bmin N2).
      * exact (le_trans _ _ _ X2 Bmax).
    + exact (le_trans _ _ _ Bmin N1).
    + exact (le_trans _ _ _ X1 Bmax).
    + destruct Imin as [E|I]; [|right; right; exact I].
      rewrite <- E. destruct N4 as [->| ->];
        [left; reflexivity | right; left; reflexivity].
    + destruct Imax as [E|I]; [|right; right; exact I].
      rewrite <- E. destruct X4 as [->| ->];
        [left; reflexivity | right; left; reflexivity].
Qed.

(** ** [main] *)

Lemma main_conflicting_units : forall rest stdin w0 ws,
  main (("C"%char, []) :: ("F"%char, []) :: rest) stdin w0 ws =
  ([EMultipleUnits], Ret (-1)).
Proof. reflexivity. Qed.

Lemma main_average_default : forall stdin w0 ws,
  main [("a"%char, [])] stdin w0 ws =
  ccputemp_do_avg w0 ws 0 CELSIUS g_default_runtime_secs.
Proof.
  intros stdin w0 ws. unfold main.
  change (parse_options [("a"%char, [])] options_init)
    with (ret (A := Z + options)
              (inr {| opt_help := 0; opt_unit := 0; opt_unit_val := CELSIUS;
                      opt_version := 0; opt_seconds := 0;
                      opt_seconds_val := g_default_runtime_secs;
                      opt_avg := 1 |})).
  rewrite bind_ret. reflexivity.
Qed.

Lemma main_seconds_flag : forall stdin w0 ws,
  main [("K"%char, []); ("s"%char, list_ascii_of_string "3")] stdin w0 ws =
  ccputemp_do_normal w0 ws stdin 1 KELVIN 3 1.
Proof.
  intros stdin w0 ws. unfold main.
  change (parse_options _ options_init)
    with (ret (A := Z + options)
              (inr {| opt_help := 0; opt_unit := 1; opt_unit_val := KELVIN;
                      opt_version := 0; opt_seconds := 1;
                      opt_seconds_val := 3; opt_avg := 0 |})).
  rewrite bind_ret. reflexivity.
Qed.

(** * Further properties of the code *)

(** ** The locator and the reader *)

Lemma find_first_split : forall (A : Type) (f : A -> bool) (l : list A) (x : A),
  find f l = Some x <->
  exists before after,
    l = before ++ x :: after /\ f x = true /\
    Forall (fun y => f y = false) before.
Proof.
  intros A f l x. induction l as [|a l IH]; cbn [find].
  - split; [discriminate|]. intros (b & c & E & _). destruct b; discriminate E.
  - destruct (f a) eqn:Fa.
    + split.
      * intro H. injection H as <-. exists [], l. repeat split; auto.
      * intros (b & c & E & Fx & Hb). destruct b as [|y b].
        -- injection E as -> _. reflexivity.
        -- injection E as -> _. inversion Hb; congruence.
    + rewrite IH. split.
      * intros (b & c & E & Fx & Hb). exists (a :: b), c. subst l.
        repeat split; auto.
      * intros (b & c & E & Fx & Hb). destruct b as [|y b].
        -- injection E as -> _. congruence.
        -- injection E as -> ->. exists b, c. inversion Hb; auto.
Qed.

(** X1: the locator returns a path exactly when that path is a candidate
    that exists and no candidate declared before it exists. *)
Theorem locator_picks_first_existing : forall w p,
  ccputemp_get_thermal_path w = PathFound p <->
  exists before after,
    g_thermal_path_list = before ++ p :: after /\ w_stat w p = true /\
    Forall (fun q => w_stat w q = false) before.
Proof.
  intros w p. rewrite <- (find_first_split path (w_stat w)). split.
  - apply locator_found_is_first.
  - apply locator_first_existing.
Qed.

Lemma fgets_chars_line : forall l n rest,
  ~ In LF l -> (List.length l < n)%nat ->
  fgets_chars n (l ++ LF :: rest) = l ++ [LF].
Proof.
  induction l as [|c l IH]; intros n rest Hn Hl.
  - destruct n; [inversion Hl | reflexivity].
  - destruct n as [|n]; [inversion Hl|]. cbn [app fgets_chars].
    destruct (Ascii.eqb c LF) eqn:E.
    + apply Ascii.eqb_eq in E. exfalso. apply Hn. left. exact E.
    + f_equal. apply IH.
      * intro H. apply Hn. right. exact H.
      * cbn [List.length] in Hl. lia.
Qed.

Lemma fgets_chars_full : forall l n rest,
  ~ In LF l -> List.length l = n -> fgets_chars n (l ++ rest) = l.
Proof.
  induction l as [|c l IH]; intros n rest Hn Hl.
  - subst n. reflexivity.
  - destruct n as [|n]; [discriminate Hl|]. cbn [app fgets_chars].
    destruct (Ascii.eqb c LF) eqn:E.
    + apply Ascii.eqb_eq in E. exfalso. apply Hn. left. exact E.
    + f_equal. apply IH.
      * intro H. apply Hn. right. exact H.
      * cbn [List.length] in Hl. lia.
Qed.

(** X2: only the first line of the file counts: whatever follows the
    first newline has no effect on the value read. *)
Theorem reader_first_line_only : forall w p l rest,
  ~ In LF l -> (List.length l < 31)%nat ->
  w_fopen_r w p = Some (Bytes (l ++ LF :: rest)) ->
  ccputemp_get_thermal_value_from_file w (Some p) =
  Some (F32.of_Z (Z.quot (atoi (c_str (l ++ [LF]))) 1000)).
Proof.
  intros w p l rest Hn Hl Ho.
  unfold ccputemp_get_thermal_value_from_file. rewrite Ho.
  unfold fgets, tmp_buf_len. cbn [Nat.sub].
  rewrite (fgets_chars_line l 31 rest Hn Hl).
  destruct (l ++ LF :: rest) eqn:E; [|reflexivity].
  destruct l; discriminate E.
Qed.

Lemma reader_first_line_only_witness :
  ccputemp_get_thermal_value_from_file
    (machine (list_ascii_of_string "45000" ++ LF :: list_ascii_of_string "99")
             false true true) (Some thm0) =
  Some (F32.of_Z (Z.quot (atoi (c_str (list_ascii_of_string "45000" ++ [LF])))
                         1000)).
Proof.
  apply (reader_first_line_only _ thm0 (list_ascii_of_string "45000")
           (list_ascii_of_string "99")).
  - intro H. repeat (destruct H as [H|H]; [discriminate H|]). exact H.
  - cbn. lia.
  - reflexivity.
Defined.

(** X3: a first line of more than 31 bytes is cut: the value read is that
    of its first 31 bytes. *)
Theorem reader_long_line_cut : forall w p l rest,
  ~ In LF l -> List.length l = 31%nat ->
  w_fopen_r w p = Some (Bytes (l ++ rest)) ->
  ccputemp_get_thermal_value_from_file w (Some p) =
  Some (F32.of_Z (Z.quot (atoi (c_str l)) 1000)).
Proof.
  intros w p l rest Hn Hl Ho.
  unfold ccputemp_get_thermal_value_from_file. rewrite Ho.
  unfold fgets, tmp_buf_len. cbn [Nat.sub].
  rewrite (fgets_chars_full l 31 rest Hn Hl).
  destruct (l ++ rest) eqn:E; [|reflexivity].
  destruct l; [discriminate Hl | discriminate E].
Qed.

Lemma reader_long_line_cut_witness :
  ccputemp_get_thermal_value_from_file
    (machine (list_ascii_of_string "0000000000000000000000000045000" ++
              list_ascii_of_string "999") false true true) (Some thm0) =
  Some (F32.of_Z
          (Z.quot (atoi (c_str (list_ascii_of_string
                                  "0000000000000000000000000045000"))) 1000)).
Proof.
  apply (reader_long_line_cut _ thm0
           (list_ascii_of_string "0000000000000000000000000045000")
           (list_ascii_of_string "999")).
  - intro H. repeat (destruct H as [H|H]; [discriminate H|]). exact H.
  - reflexivity.
  - reflexivity.
Defined.

Lemma reader_whole_degrees_witness :
  exists k : Z, F32.of_Z (-5) = F32.of_Z k /\ - 2147483 <= k <= 2147483.
Proof.
  apply (reader_whole_degrees (machine (line "-5999"%string) false true true)
           (Some thm0) (F32.of_Z (-5))).
  reflexivity.
Defined.

(** ** The running statistics *)

Lemma lt_not_le : forall x y, F32.lt x y = true -> F32.le y x = false.
Proof.
  intros [s|s| |s m e] [s'|s'| |s' m' e'];
    try destruct s; try destruct s';
    unfold F32.lt, F32.le, SFltb, SFleb, SFcompare;
    try reflexivity; try discriminate;
    intro H; order_cases; subst; cbn [CompOpp] in *;
    try reflexivity; try discriminate; try lia.
Qed.

(** X6: after any samples that are numbers, [temp_min] is at most every
    sample and [temp_max] is at least every sample. *)
Theorem running_bounds_hold : forall l,
  Forall (fun x => F32.is_nan x = false) l ->
  Forall (fun x =>
            F32.le (st_min (stats_after l stats_init)) x = true /\
            F32.le x (st_max (stats_after l stats_init)) = true) l.
Proof.
  intros l H.
  exact (proj1 (stats_bounds l stats_init H eq_refl eq_refl)).
Qed.

Lemma running_bounds_hold_witness :
  Forall (fun x =>
            F32.le (st_min (stats_after [F32.of_Z 45; F32.of_Z (-3)]
                                        stats_init)) x = true /\
            F32.le x (st_max (stats_after [F32.of_Z 45; F32.of_Z (-3)]
                                          stats_init)) = true)
         [F32.of_Z 45; F32.of_Z (-3)].
Proof.
  apply (running_bounds_hold [F32.of_Z 45; F32.of_Z (-3)]).
  repeat constructor.
Defined.

(** X8: when some sample is above [FLT_MIN], the highest temperature kept
    is one of the samples and no sample is above it. *)
Theorem highest_is_largest_sample : forall l,
  Forall (fun x => F32.is_nan x = false) l ->
  Exists (fun x => F32.lt F32.FLT_MIN x = true) l ->
  In (st_max (stats_after l stats_init)) l /\
  Forall (fun x => F32.le x (st_max (stats_after l stats_init)) = true) l.
Proof.
  intros l H Hpos.
  destruct (stats_bounds l stats_init H eq_refl eq_refl)
    as (B & _ & _ & _ & Imax).
  assert (U : Forall (fun x => F32.le x (st_max (stats_after l stats_init))
                               = true) l)
    by (eapply Forall_impl; [|exact B]; intros x [_ Hx]; exact Hx).
  split; [|exact U].
  destruct Imax as [E|I]; [|exact I]. exfalso.
  apply Exists_exists in Hpos. destruct Hpos as (x & Hin & Hx).
  rewrite Forall_forall in U. specialize (U x Hin).
  rewrite <- E in U. cbn [stats_init st_max] in U.
  rewrite (lt_not_le _ _ Hx) in U. discriminate U.
Qed.

Lemma highest_is_largest_sample_witness :
  In (st_max (stats_after [F32.of_Z (-3); F32.of_Z 45] stats_init))
     [F32.of_Z (-3); F32.of_Z 45] /\
  Forall (fun x => F32.le x (st_max (stats_after [F32.of_Z (-3); F32.of_Z 45]
                                                 stats_init)) = true)
         [F32.of_Z (-3); F32.of_Z 45].
Proof.
  apply (highest_is_largest_sample [F32.of_Z (-3); F32.of_Z 45]).
  - repeat constructor.
  - apply Exists_cons_tl. apply Exists_cons_hd. reflexivity.
Defined.

(** X9: when some sample is below [FLT_MAX], the lowest temperature kept
    is one of the samples and no sample is below it. *)
Theorem lowest_is_smallest_sample : forall l,
  Forall (fun x => F32.is_nan x = false) l ->
  Exists (fun x => F32.lt x F32.FLT_MAX = true) l ->
  In (st_min (stats_after l stats_init)) l /\
  Forall (fun x => F32.le (st_min (stats_after l stats_init)) x = true) l.
Proof.
  intros l H Hlow.
  destruct (stats_bounds l stats_init H eq_refl eq_refl)
    as (B & _ & _ & Imin & _).
  assert (L : Forall (fun x => F32.le (st_min (stats_after l stats_init)) x
                               = true) l)
    by (eapply Forall_impl; [|exact B]; intros x [Hx _]; exact Hx).
  split; [|exact L].
  destruct Imin as [E|I]; [|exact I]. exfalso.
  apply Exists_exists in Hlow. destruct Hlow as (x & Hin & Hx).
  rewrite Forall_forall in L. specialize (L x Hin).
  rewrite <- E in L. cbn [stats_init st_min] in L.
  rewrite (lt_not_le _ _ Hx) in L. discriminate L.
Qed.

Lemma lowest_is_smallest_sample_witness :
  In (st_min (stats_after [F32.of_Z (-3); F32.of_Z 45] stats_init))
     [F32.of_Z (-3); F32.of_Z 45] /\
  Forall (fun x => F32.le (st_min (stats_after [F32.of_Z (-3); F32.of_Z 45]
                                               stats_init)) x = true)
         [F32.of_Z (-3); F32.of_Z 45].
Proof.
  apply (lowest_is_smallest_sample [F32.of_Z (-3); F32.of_Z 45]).
  - repeat constructor.
  - apply Exists_cons_hd. reflexivity.
Defined.

Lemma highest_of_nonpositive_samples_witness :
  st_max (stats_after [F32.of_Z (-5); F32.zero] stats_init) = F32.FLT_MIN /\
  Forall (fun x => F32.lt x (st_max (stats_after [F32.of_Z (-5); F32.zero]
                                                 stats_init)) = true)
         [F32.of_Z (-5); F32.zero].
Proof.
  apply (highest_of_nonpositive_samples [F32.of_Z (-5); F32.zero]).
  repeat constructor.
Defined.

(** ** Runs of normal mode *)

Lemma to_uint_small : forall z, 0 <= z < 2 ^ 32 -> to_uint z = z.
Proof. intros z H. unfold to_uint. apply Z.mod_small. exact H. Qed.

Lemma tick_lines_app : forall a b,
  tick_lines (a ++ b) = tick_lines a ++ tick_lines b.
Proof.
  induction a as [|e a IH]; intro b; [reflexivity|].
  destruct e; cbn [app tick_lines]; rewrite IH; reflexivity.
Qed.

Lemma log_entries_app : forall a b,
  log_entries (a ++ b) = log_entries a ++ log_entries b.
Proof.
  induction a as [|e a IH]; intro b; [reflexivity|].
  destruct e; cbn [app log_entries]; rewrite IH; reflexivity.
Qed.

Lemma prompts_have_no_lines : forall tr,
  Forall (fun e => e = EPrompt) tr ->
  tick_lines tr = [] /\ log_entries tr = [].
Proof.
  induction 1 as [|e tr He _ [IH1 IH2]]; [split; reflexivity|].
  subst e. split; assumption.
Qed.

Lemma log_entries_tick_trace : forall unit l st,
  log_entries (tick_trace unit l st) = [].
Proof.
  intros unit l. induction l as [|v l IH]; intro st; [reflexivity|].
  cbn [tick_trace log_entries]. apply IH.
Qed.

Lemma tick_lines_finish : forall w unit st,
  tick_lines (fst (normal_finish w unit st)) = [].
Proof.
  intros w unit st. unfold normal_finish, ccputemp_do_log.
  destruct (0 <? st_i st); [|reflexivity].
  destruct (w_stat w g_default_log_file); [|reflexivity].
  destruct (w_fopen_a w g_default_log_file); reflexivity.
Qed.

Lemma tick_lines_tick_trace : forall unit l st,
  0 <= st_i st -> st_i st + Z.of_nat (List.length l) < 2 ^ 32 ->
  tick_lines (tick_trace unit l st) =
  map (fun k => (F32.div (fold_left F32.add (firstn k l) (st_sum st))
                         (F32.of_Z (st_i st + Z.of_nat k)),
                 st_i st + Z.of_nat k))
      (seq 1 (List.length l)).
Proof.
  intros unit l. induction l as [|v l IH]; intros st H0 H1; [reflexivity|].
  cbn [List.length] in H1.
  cbn [tick_trace tick_lines List.length seq map firstn fold_left].
  rewrite to_size_t_small by lia.
  rewrite (to_uint_small (st_i st)) by lia.
  rewrite to_uint_small by lia.
  change (Z.of_nat 1) with 1. f_equal.
  assert (Ei : st_i (stats_update st v) = st_i st + 1)
    by (cbn [stats_update st_i]; apply to_size_t_small; lia).
  rewrite IH by (rewrite Ei; lia).
  rewrite <- (seq_shift (List.length l) 1), map_map. apply map_ext. intro k.
  rewrite Ei. cbn [stats_update st_sum firstn fold_left].
  replace (st_i st + 1 + Z.of_nat k) with (st_i st + Z.of_nat (S k)) by lia.
  reflexivity.
Qed.

(** The shape of a run of normal mode that makes the ticks of [ws] and
    leaves its loop in the world [w_end]. *)
Lemma do_normal_run :
  forall w0 src ws w_end rest stdin opt_unit unit ptr u seconds opt_seconds,
  ccputemp_get_thermal_path w0 = PathFound src ->
  choose_unit stdin opt_unit unit = (ptr, Ret u) ->
  Forall (calm src) ws ->
  Z.of_nat (List.length ws) < 2 ^ 64 ->
  within_bound opt_seconds (seconds_in_force opt_seconds seconds)
               (List.length ws) ->
  loop_ends opt_seconds (seconds_in_force opt_seconds seconds)
            (List.length ws) w_end ->
  st_i (stats_after (samples src u ws) stats_init)
    = Z.of_nat (List.length ws) /\
  ccputemp_do_normal w0 (ws ++ w_end :: rest) stdin opt_unit unit
                     seconds opt_seconds =
  (EVersion :: ptr ++ tick_trace u (samples src u ws) stats_init ++
     fst (normal_finish w_end u
            (stats_after (samples src u ws) stats_init)),
   snd (normal_finish w_end u (stats_after (samples src u ws) stats_init))).
Proof.
  intros w0 src ws w_end rest stdin opt_unit unit ptr u seconds opt_seconds
         Hp Hu Hc Hl Hb He.
  set (st := stats_after (samples src u ws) stats_init).
  assert (Hi : st_i st = Z.of_nat (List.length ws)).
  { unfold st. rewrite stats_after_count;
      unfold samples; rewrite ?length_map; cbn [stats_init st_i]; lia. }
  split; [exact Hi|].
  rewrite (do_normal_located _ _ _ _ _ _ _ _ _ _ Hp Hu).
  fold (seconds_in_force opt_seconds seconds).
  set (s := seconds_in_force opt_seconds seconds) in *.
  rewrite normal_loop_ticks
    by (first [ assumption
              | destruct Hb as [->|Hb];
                [left; reflexivity | right; cbn [stats_init st_i]; lia] ]).
  fold st.
  assert (E : normal_loop (w_end :: rest) src u s opt_seconds st =
              normal_finish w_end u st).
  { unfold loop_ends in He. cbn [normal_loop].
    destruct (w_sigint w_end); [reflexivity|].
    destruct He as [He|[Ho He]]; [discriminate He|].
    apply Z.eqb_neq in Ho. rewrite Ho, Hi. cbn [negb andb].
    apply Z.leb_le in He. rewrite He. reflexivity. }
  rewrite E. reflexivity.
Qed.

(** X11: the line printed at the k-th tick of normal mode shows the mean
    of the first k samples and the count k. *)
Theorem tick_lines_show_running_mean :
  forall w0 src ws w_end rest stdin opt_unit unit ptr u seconds opt_seconds,
  ccputemp_get_thermal_path w0 = PathFound src ->
  choose_unit stdin opt_unit unit = (ptr, Ret u) ->
  Forall (calm src) ws ->
  Z.of_nat (List.length ws) < 2 ^ 32 ->
  within_bound opt_seconds (seconds_in_force opt_seconds seconds)
               (List.length ws) ->
  loop_ends opt_seconds (seconds_in_force opt_seconds seconds)
            (List.length ws) w_end ->
  tick_lines (fst (ccputemp_do_normal w0 (ws ++ w_end :: rest) stdin
                     opt_unit unit seconds opt_seconds)) =
  map (fun k => (F32.div (fsum (firstn k (samples src u ws)))
                         (F32.of_Z (Z.of_nat k)), Z.of_nat k))
      (seq 1 (List.length ws)).
Proof.
  intros w0 src ws w_end rest stdin opt_unit unit ptr u seconds opt_seconds
         Hp Hu Hc Hl Hb He.
  destruct (do_normal_run w0 src ws w_end rest stdin opt_unit unit ptr u
              seconds opt_seconds Hp Hu Hc ltac:(lia) Hb He) as [_ E].
  rewrite E. cbn [fst tick_lines].
  rewrite !tick_lines_app, tick_lines_finish, app_nil_r.
  destruct (prompts_have_no_lines ptr) as [-> _].
  { pose proof (choose_unit_trace stdin opt_unit unit) as T.
    rewrite Hu in T. exact T. }
  cbn [app].
  rewrite tick_lines_tick_trace
    by (cbn [stats_init st_i]; unfold samples; rewrite ?length_map; lia).
  unfold samples at 2. rewrite length_map. reflexivity.
Qed.

Lemma tick_lines_show_running_mean_witness :
  let m := machine (line "45000"%string) false true true in
  let m' := machine (line "47000"%string) false true true in
  let stop := machine (line "47000"%string) true true true in
  tick_lines (fst (ccputemp_do_normal m ([m; m'] ++ stop :: []) []
                     1 CELSIUS 0 0)) =
  map (fun k => (F32.div (fsum (firstn k (samples thm0 CELSIUS [m; m'])))
                         (F32.of_Z (Z.of_nat k)), Z.of_nat k))
      (seq 1 (List.length [m; m'])).
Proof.
  intros m m' stop.
  apply (tick_lines_show_running_mean m thm0 [m; m'] stop [] [] 1 CELSIUS
           [] CELSIUS 0 0).
  - reflexivity.
  - reflexivity.
  - repeat constructor; unfold readable; vm_compute; discriminate.
  - cbn. lia.
  - left. reflexivity.
  - left. reflexivity.
Defined.

Lemma to_int_small : forall z, - 2 ^ 31 <= z < 2 ^ 31 -> to_int z = z.
Proof.
  intros z H. unfold to_int. rewrite Z.mod_small; lia.
Qed.

Lemma normal_finish_appendable : forall w unit st,
  0 < st_i st ->
  w_stat w g_default_log_file = true ->
  w_fopen_a w g_default_log_file = true ->
  normal_finish w unit st =
  ([ESummary (st_max st) (st_min st)
             (F32.div (st_sum st) (F32.of_Z (to_size_t (st_i st + 1))))
             (ccputemp_temp_unit_t_to_str unit);
    EFopenAppend g_default_log_file;
    ELogBlock g_default_log_file (w_time w)
              (to_int (to_size_t (st_i st + 1)))
              (st_max st) (st_min st)
              (F32.div (st_sum st) (F32.of_Z (to_size_t (st_i st + 1))))
              (ccputemp_temp_unit_t_to_str unit);
    ELogUpdated], Ret 0).
Proof.
  intros w unit st Hi Hs Ha. unfold normal_finish, ccputemp_do_log.
  apply Z.ltb_lt in Hi. rewrite Hi, Hs, Ha. reflexivity.
Qed.

Lemma normal_finish_missing : forall w unit st,
  0 < st_i st ->
  w_stat w g_default_log_file = false ->
  normal_finish w unit st =
  ([ESummary (st_max st) (st_min st)
             (F32.div (st_sum st) (F32.of_Z (to_size_t (st_i st + 1))))
             (ccputemp_temp_unit_t_to_str unit);
    ELogMissing g_default_log_file], Ret 0).
Proof.
  intros w unit st Hi Hs. unfold normal_finish, ccputemp_do_log.
  apply Z.ltb_lt in Hi. rewrite Hi, Hs. reflexivity.
Qed.

Lemma prompt_trace_of_choice : forall stdin opt_unit unit ptr u,
  choose_unit stdin opt_unit unit = (ptr, Ret u) ->
  Forall (fun e => e = EPrompt) ptr.
Proof.
  intros stdin opt_unit unit ptr u Hu.
  pose proof (choose_unit_trace stdin opt_unit unit) as T.
  rewrite Hu in T. exact T.
Qed.

(** X12: a run of normal mode that collected [N >= 1] samples reports as
    highest the [max] of the samples and [FLT_MIN], as lowest the [min]
    of the samples and [FLT_MAX], and as average their sum divided by
    [N + 1]. *)
Theorem normal_run_report :
  forall w0 src ws w_end rest stdin opt_unit unit ptr u seconds opt_seconds,
  ccputemp_get_thermal_path w0 = PathFound src ->
  choose_unit stdin opt_unit unit = (ptr, Ret u) ->
  Forall (calm src) ws ->
  ws <> [] ->
  Z.of_nat (List.length ws) + 1 < 2 ^ 64 ->
  within_bound opt_seconds (seconds_in_force opt_seconds seconds)
               (List.length ws) ->
  loop_ends opt_seconds (seconds_in_force opt_seconds seconds)
            (List.length ws) w_end ->
  summary_of (fst (ccputemp_do_normal w0 (ws ++ w_end :: rest) stdin
                     opt_unit unit seconds opt_seconds)) =
  Some (fold_left Macro.max (samples src u ws) F32.FLT_MIN,
        fold_left Macro.min (samples src u ws) F32.FLT_MAX,
        F32.div (fsum (samples src u ws))
                (F32.of_Z (Z.of_nat (List.length ws) + 1))).
Proof.
  intros w0 src ws w_end rest stdin opt_unit unit ptr u seconds opt_seconds
         Hp Hu Hc Hne Hl Hb He.
  destruct (do_normal_run w0 src ws w_end rest stdin opt_unit unit ptr u
              seconds opt_seconds Hp Hu Hc ltac:(lia) Hb He) as [Hi E].
  rewrite E. cbn [fst summary_of].
  rewrite summary_of_skip
    by (apply prompts_are_silent; exact (prompt_trace_of_choice _ _ _ _ _ Hu)).
  rewrite summary_of_skip by apply tick_trace_no_report.
  rewrite normal_finish_summary
    by (rewrite Hi; destruct ws; [contradiction | cbn [List.length]; lia]).
  rewrite stats_after_max, stats_after_min, stats_after_sum, Hi.
  rewrite to_size_t_small by lia. reflexivity.
Qed.

Lemma normal_run_report_witness :
  let m := machine (line "45000"%string) false true true in
  let m' := machine (line "47000"%string) false true true in
  summary_of (fst (ccputemp_do_normal m ([m; m'] ++ m :: []) []
                     1 CELSIUS 2 1)) =
  Some (fold_left Macro.max (samples thm0 CELSIUS [m; m']) F32.FLT_MIN,
        fold_left Macro.min (samples thm0 CELSIUS [m; m']) F32.FLT_MAX,
        F32.div (fsum (samples thm0 CELSIUS [m; m']))
                (F32.of_Z (Z.of_nat (List.length [m; m']) + 1))).
Proof.
  intros m m'.
  apply (normal_run_report m thm0 [m; m'] m [] [] 1 CELSIUS [] CELSIUS 2 1).
  - reflexivity.
  - reflexivity.
  - repeat constructor; unfold readable; vm_compute; discriminate.
  - discriminate.
  - cbn. lia.
  - right. vm_compute. discriminate.
  - right. split; [discriminate | vm_compute; discriminate].
Defined.

(** X13: when the log file exists and can be appended to, a run of normal
    mode that collected [N >= 1] samples returns 0 and writes one log
    entry, which holds the three values of the summary and [N + 1] as the
    seconds run. *)
Theorem normal_run_logs_its_summary :
  forall w0 src ws w_end rest stdin opt_unit unit ptr u seconds opt_seconds,
  ccputemp_get_thermal_path w0 = PathFound src ->
  choose_unit stdin opt_unit unit = (ptr, Ret u) ->
  Forall (calm src) ws ->
  ws <> [] ->
  Z.of_nat (List.length ws) + 1 < 2 ^ 31 ->
  within_bound opt_seconds (seconds_in_force opt_seconds seconds)
               (List.length ws) ->
  loop_ends opt_seconds (seconds_in_force opt_seconds seconds)
            (List.length ws) w_end ->
  w_stat w_end g_default_log_file = true ->
  w_fopen_a w_end g_default_log_file = true ->
  exists hi lo avg,
    summary_of (fst (ccputemp_do_normal w0 (ws ++ w_end :: rest) stdin
                       opt_unit unit seconds opt_seconds))
      = Some (hi, lo, avg) /\
    log_entries (fst (ccputemp_do_normal w0 (ws ++ w_end :: rest) stdin
                        opt_unit unit seconds opt_seconds))
      = [(Z.of_nat (List.length ws) + 1, hi, lo, avg)] /\
    snd (ccputemp_do_normal w0 (ws ++ w_end :: rest) stdin
           opt_unit unit seconds opt_seconds) = Ret 0.
Proof.
  intros w0 src ws w_end rest stdin opt_unit unit ptr u seconds opt_seconds
         Hp Hu Hc Hne Hl Hb He Hs Ha.
  destruct (do_normal_run w0 src ws w_end rest stdin opt_unit unit ptr u
              seconds opt_seconds Hp Hu Hc ltac:(lia) Hb He) as [Hi E].
  set (st := stats_after (samples src u ws) stats_init) in *.
  assert (Hpos : 0 < st_i st)
    by (rewrite Hi; destruct ws; [contradiction | cbn [List.length]; lia]).
  rewrite (normal_finish_appendable w_end u st Hpos Hs Ha) in E.
  exists (st_max st), (st_min st),
         (F32.div (st_sum st) (F32.of_Z (to_size_t (st_i st + 1)))).
  rewrite E. cbn [fst snd summary_of log_entries].
  pose proof (prompt_trace_of_choice _ _ _ _ _ Hu) as T.
  rewrite summary_of_skip by (apply prompts_are_silent; exact T).
  rewrite summary_of_skip by apply tick_trace_no_report.
  rewrite !log_entries_app, log_entries_tick_trace.
  destruct (prompts_have_no_lines ptr T) as [_ ->].
  cbn [app summary_of log_entries].
  rewrite Hi, to_size_t_small, to_int_small by lia.
  repeat split; reflexivity.
Qed.

Lemma normal_run_logs_its_summary_witness :
  let m := machine (line "45000"%string) false true true in
  exists hi lo avg,
    summary_of (fst (ccputemp_do_normal m ([m; m] ++ m :: []) []
                       1 CELSIUS 2 1)) = Some (hi, lo, avg) /\
    log_entries (fst (ccputemp_do_normal m ([m; m] ++ m :: []) []
                        1 CELSIUS 2 1))
      = [(Z.of_nat (List.length [m; m]) + 1, hi, lo, avg)] /\
    snd (ccputemp_do_normal m ([m; m] ++ m :: []) [] 1 CELSIUS 2 1) = Ret 0.
Proof.
  intro m.
  apply (normal_run_logs_its_summary m thm0 [m; m] m [] [] 1 CELSIUS
           [] CELSIUS 2 1).
  - reflexivity.
  - reflexivity.
  - repeat constructor; unfold readable; vm_compute; discriminate.
  - discriminate.
  - cbn. lia.
  - right. vm_compute. discriminate.
  - right. split; [discriminate | vm_compute; discriminate].
  - reflexivity.
  - reflexivity.
Defined.

(** X14: a log file that does not exist costs the run nothing: normal
    mode prints its summary and the diagnostic, does not call [fopen],
    and returns 0. *)
Theorem missing_log_is_harmless :
  forall w0 src ws w_end rest stdin opt_unit unit ptr u seconds opt_seconds,
  ccputemp_get_thermal_path w0 = PathFound src ->
  choose_unit stdin opt_unit unit = (ptr, Ret u) ->
  Forall (calm src) ws ->
  ws <> [] ->
  Z.of_nat (List.length ws) + 1 < 2 ^ 64 ->
  within_bound opt_seconds (seconds_in_force opt_seconds seconds)
               (List.length ws) ->
  loop_ends opt_seconds (seconds_in_force opt_seconds seconds)
            (List.length ws) w_end ->
  w_stat w_end g_default_log_file = false ->
  ccputemp_do_normal w0 (ws ++ w_end :: rest) stdin opt_unit unit
                     seconds opt_seconds =
  (EVersion :: ptr ++ tick_trace u (samples src u ws) stats_init ++
     [ESummary (fold_left Macro.max (samples src u ws) F32.FLT_MIN)
               (fold_left Macro.min (samples src u ws) F32.FLT_MAX)
               (F32.div (fsum (samples src u ws))
                        (F32.of_Z (Z.of_nat (List.length ws) + 1)))
               (ccputemp_temp_unit_t_to_str u);
      ELogMissing g_default_log_file], Ret 0).
Proof.
  intros w0 src ws w_end rest stdin opt_unit unit ptr u seconds opt_seconds
         Hp Hu Hc Hne Hl Hb He Hs.
  destruct (do_normal_run w0 src ws w_end rest stdin opt_unit unit ptr u
              seconds opt_seconds Hp Hu Hc ltac:(lia) Hb He) as [Hi E].
  rewrite E, normal_finish_missing
    by (first [ exact Hs
              | rewrite Hi; destruct ws;
                [contradiction | cbn [List.length]; lia] ]).
  cbn [fst snd].
  rewrite stats_after_max, stats_after_min, stats_after_sum, Hi.
  rewrite to_size_t_small by lia. reflexivity.
Qed.

Lemma missing_log_is_harmless_witness :
  let m := machine (line "45000"%string) false false false in
  let stop := machine (line "45000"%string) true false false in
  ccputemp_do_normal m ([m] ++ stop :: []) [] 1 CELSIUS 0 0 =
  (EVersion :: [] ++ tick_trace CELSIUS (samples thm0 CELSIUS [m]) stats_init ++
     [ESummary (fold_left Macro.max (samples thm0 CELSIUS [m]) F32.FLT_MIN)
               (fold_left Macro.min (samples thm0 CELSIUS [m]) F32.FLT_MAX)
               (F32.div (fsum (samples thm0 CELSIUS [m]))
                        (F32.of_Z (Z.of_nat (List.length [m]) + 1)))
               (ccputemp_temp_unit_t_to_str CELSIUS);
      ELogMissing g_default_log_file], Ret 0).
Proof.
  intros m stop.
  apply (missing_log_is_harmless m thm0 [m] stop [] [] 1 CELSIUS
           [] CELSIUS 0 0).
  - reflexivity.
  - reflexivity.
  - repeat constructor; unfold readable; vm_compute; discriminate.
  - discriminate.
  - cbn. lia.
  - left. reflexivity.
  - left. reflexivity.
  - reflexivity.
Defined.

(** X16: when SIGINT is seen before the first tick, normal mode makes no
    read, prints that not enough measurements were collected, does not
    call the logger and returns 0. *)
Theorem interrupted_at_once :
  forall w0 src w_end rest stdin opt_unit unit ptr u seconds opt_seconds,
  ccputemp_get_thermal_path w0 = PathFound src ->
  choose_unit stdin opt_unit unit = (ptr, Ret u) ->
  w_sigint w_end = true ->
  ccputemp_do_normal w0 (w_end :: rest) stdin opt_unit unit
                     seconds opt_seconds =
  (EVersion :: ptr ++ [ENotEnough], Ret 0).
Proof.
  intros w0 src w_end rest stdin opt_unit unit ptr u seconds opt_seconds
         Hp Hu Hs.
  rewrite (do_normal_located _ _ _ _ _ _ _ _ _ _ Hp Hu).
  cbn [normal_loop]. rewrite Hs. reflexivity.
Qed.

Lemma interrupted_at_once_witness :
  let stop := machine (line "45000"%string) true true true in
  ccputemp_do_normal stop (stop :: []) [] 1 KELVIN 0 0 =
  (EVersion :: [] ++ [ENotEnough], Ret 0).
Proof.
  intro stop.
  apply (interrupted_at_once stop thm0 stop [] [] 1 KELVIN [] KELVIN 0 0);
    reflexivity.
Defined.

(** X17: without the seconds flag normal mode does not end on its own:
    as long as no SIGINT is seen and the reads succeed it keeps ticking,
    however long the history. *)
Theorem unbounded_run_goes_on :
  forall w0 src ws stdin opt_unit unit ptr u seconds,
  ccputemp_get_thermal_path w0 = PathFound src ->
  choose_unit stdin opt_unit unit = (ptr, Ret u) ->
  Forall (calm src) ws ->
  ccputemp_do_normal w0 ws stdin opt_unit unit seconds 0 =
  (EVersion :: ptr ++ tick_trace u (samples src u ws) stats_init, More) /\
  ticks (fst (ccputemp_do_normal w0 ws stdin opt_unit unit seconds 0))
    = List.length ws.
Proof.
  intros w0 src ws stdin opt_unit unit ptr u seconds Hp Hu Hc.
  assert (E : ccputemp_do_normal w0 ws stdin opt_unit unit seconds 0 =
              (EVersion :: ptr ++ tick_trace u (samples src u ws) stats_init,
               More)).
  { rewrite (do_normal_located _ _ _ _ _ _ _ _ _ _ Hp Hu).
    rewrite <- (app_nil_r ws) at 1 2.
    rewrite normal_loop_ticks by (first [assumption | left; reflexivity]).
    cbn [normal_loop fst snd]. rewrite app_nil_r. reflexivity. }
  split; [exact E|]. rewrite E. cbn [fst].
  change (ticks (EVersion :: ?t)) with (ticks t).
  rewrite ticks_app, ticks_tick_trace.
  destruct (prompts_are_silent ptr (prompt_trace_of_choice _ _ _ _ _ Hu))
    as [-> _].
  unfold samples. rewrite length_map. reflexivity.
Qed.

Lemma unbounded_run_goes_on_witness :
  let m := machine (line "45000"%string) false true true in
  ccputemp_do_normal m [m; m; m] [] 1 CELSIUS 7 0 =
  (EVersion :: [] ++ tick_trace CELSIUS (samples thm0 CELSIUS [m; m; m])
                                stats_init, More) /\
  ticks (fst (ccputemp_do_normal m [m; m; m] [] 1 CELSIUS 7 0))
    = List.length [m; m; m].
Proof.
  intro m.
  apply (unbounded_run_goes_on m thm0 [m; m; m] [] 1 CELSIUS [] CELSIUS 7).
  - reflexivity.
  - reflexivity.
  - repeat constructor; unfold readable; vm_compute; discriminate.
Defined.

(** ** Runs of average mode *)

Lemma do_avg_average_witness :
  let m := machine (line "45000"%string) false true true in
  let m' := machine (line "47000"%string) false true true in
  ccputemp_do_avg m ([m; m'] ++ [m]) 1 KELVIN 2 =
  (EVersion :: repeat ESleep (List.length [m; m']) ++
     [EAverage (F32.div (fsum (samples thm0 KELVIN [m; m']))
                        (F32.of_Z (Z.of_nat (List.length [m; m']))))
               (ccputemp_temp_unit_t_to_str KELVIN)], Ret 0).
Proof.
  intros m m'.
  apply (do_avg_average m thm0 [m; m'] [m] 1 KELVIN 2).
  - reflexivity.
  - repeat constructor; unfold readable; vm_compute; discriminate.
  - lia.
  - reflexivity.
Defined.

Lemma readable_b_true : forall src w, readable_b src w = true -> readable src w.
Proof.
  intros src w. unfold readable_b, readable.
  destruct (ccputemp_get_thermal_value_from_file w (Some src));
    [discriminate | discriminate].
Qed.

Lemma readable_b_false : forall src w,
  readable_b src w = false ->
  ccputemp_get_thermal_value_from_file w (Some src) = None.
Proof.
  intros src w. unfold readable_b.
  destruct (ccputemp_get_thermal_value_from_file w (Some src));
    [discriminate | reflexivity].
Qed.

Lemma avg_loop_outcome : forall src unit seconds ws i sum,
  0 <= i <= to_size_t seconds ->
  to_size_t seconds - i <= Z.of_nat (List.length ws) ->
  snd (avg_loop ws src unit seconds i sum) =
  if forallb (readable_b src) (firstn (Z.to_nat (to_size_t seconds - i)) ws)
  then Ret 0 else Ret (-1).
Proof.
  intros src unit seconds ws.
  induction ws as [|w ws IH]; intros i sum Hi Hl.
  - cbn [List.length Z.of_nat] in Hl.
    rewrite avg_loop_done by lia. rewrite firstn_nil. reflexivity.
  - destruct (Z.eq_dec i (to_size_t seconds)) as [E|E].
    + rewrite avg_loop_done by lia.
      replace (to_size_t seconds - i) with 0 by lia. reflexivity.
    + cbn [avg_loop].
      assert (G : (i <? to_size_t seconds) = true) by (apply Z.ltb_lt; lia).
      rewrite G.
      replace (Z.to_nat (to_size_t seconds - i))
        with (S (Z.to_nat (to_size_t seconds - (i + 1)))) by lia.
      cbn [firstn forallb].
      destruct (readable_b src w) eqn:R.
      * rewrite (readable_sample src unit w (readable_b_true src w R)).
        rewrite bind_emit. cbn [snd andb].
        pose proof (to_size_t_bound seconds).
        rewrite (to_size_t_small (i + 1)) by lia.
        apply IH; [lia|]. cbn [List.length] in Hl. lia.
      * rewrite (unreadable_sample src unit w (readable_b_false src w R)).
        reflexivity.
Qed.

(** X19: once a source is found and the history covers the duration
    [D], average mode always returns: 0 when each of its [D] reads
    succeeds, -1 as soon as one fails. *)
Theorem avg_mode_outcome : forall w0 src ws opt_unit unit seconds,
  ccputemp_get_thermal_path w0 = PathFound src ->
  seconds < 2 ^ 31 ->
  effective_seconds seconds <= Z.of_nat (List.length ws) ->
  snd (ccputemp_do_avg w0 ws opt_unit unit seconds) =
  if forallb (readable_b src)
             (firstn (Z.to_nat (effective_seconds seconds)) ws)
  then Ret 0 else Ret (-1).
Proof.
  intros w0 src ws opt_unit unit seconds Hp Hs Hl.
  rewrite (do_avg_located _ _ _ _ _ _ Hp). cbn [snd].
  assert (Hge : 1 <= effective_seconds seconds < 2 ^ 31).
  { unfold effective_seconds, g_default_runtime_secs.
    destruct (seconds <? 1) eqn:L; [lia|]. apply Z.ltb_ge in L. lia. }
  assert (Hsz : to_size_t (effective_seconds seconds)
                = effective_seconds seconds)
    by (apply to_size_t_small; lia).
  rewrite avg_loop_outcome by (rewrite Hsz; lia).
  rewrite Hsz, Z.sub_0_r. reflexivity.
Qed.

Lemma avg_mode_outcome_witness :
  let m := machine (line "45000"%string) false true true in
  snd (ccputemp_do_avg m [m; locked_machine; m] 1 CELSIUS 3) =
  if forallb (readable_b thm0)
             (firstn (Z.to_nat (effective_seconds 3)) [m; locked_machine; m])
  then Ret 0 else Ret (-1).
Proof.
  intro m.
  apply (avg_mode_outcome m thm0 [m; locked_machine; m] 1 CELSIUS 3).
  - reflexivity.
  - lia.
  - vm_compute. discriminate.
Defined.

(** ** What the traces can hold *)

Lemma bind_fst : forall (A B : Type) (m : run A) (k : A -> run B),
  fst (bind m k) =
  fst m ++ match snd m with Ret a => fst (k a) | _ => [] end.
Proof.
  intros A B [tr [a|f| |]] k; cbn [bind fst snd];
    try (rewrite app_nil_r; reflexivity).
  destruct (k a). reflexivity.
Qed.

Lemma avg_loop_alphabet : forall src unit seconds ws i sum,
  Forall (fun e => avg_loop_event e = true)
         (fst (avg_loop ws src unit seconds i sum)).
Proof.
  intros src unit seconds ws.
  induction ws as [|w ws IH]; intros i sum; cbn [avg_loop];
    destruct (i <? to_size_t seconds); try (repeat constructor).
  destruct (ccputemp_get_unit_temp_from_file w (Some src) unit).
  - rewrite bind_emit. cbn [fst]. constructor; [reflexivity | apply IH].
  - repeat constructor.
Qed.

Lemma normal_finish_alphabet : forall w unit st,
  Forall (fun e => normal_loop_event e = true)
         (fst (normal_finish w unit st)).
Proof.
  intros w unit st. unfold normal_finish, ccputemp_do_log.
  destruct (0 <? st_i st); [|repeat constructor].
  destruct (w_stat w g_default_log_file); [|repeat constructor].
  destruct (w_fopen_a w g_default_log_file); repeat constructor.
Qed.

Lemma normal_loop_alphabet : forall src unit seconds opt_seconds ws st,
  Forall (fun e => normal_loop_event e = true)
         (fst (normal_loop ws src unit seconds opt_seconds st)).
Proof.
  intros src unit seconds opt_seconds ws.
  induction ws as [|w ws IH]; intro st; cbn [normal_loop];
    [constructor|].
  destruct (w_sigint w); [apply normal_finish_alphabet|].
  destruct (negb (opt_seconds =? 0) && (to_size_t seconds <=? st_i st))%bool;
    [apply normal_finish_alphabet|].
  destruct (ccputemp_get_unit_temp_from_file w (Some src) unit).
  - rewrite !bind_emit. cbn [fst].
    constructor; [reflexivity|]. constructor; [reflexivity | apply IH].
  - repeat constructor.
Qed.

(** X21: whatever the machine does, average mode prints no per-tick
    line, no summary and no prompt, and never calls the logger. *)
Theorem avg_mode_never_logs : forall w0 ws opt_unit unit seconds,
  Forall (fun e => is_normal_only e = false)
         (fst (ccputemp_do_avg w0 ws opt_unit unit seconds)).
Proof.
  intros w0 ws opt_unit unit seconds. unfold ccputemp_do_avg, locate.
  destruct (ccputemp_get_thermal_path w0) as [src| |i] eqn:Hp.
  - rewrite bind_ret, bind_emit. cbn [fst].
    constructor; [reflexivity|].
    eapply Forall_impl; [|apply avg_loop_alphabet].
    intros e He. destruct e; try discriminate He; reflexivity.
  - exfalso. exact (locator_never_null w0 Hp).
  - constructor.
Qed.

(** X22: when one of the candidate files exists, neither mode prints a
    diagnostic about a missing data source or the list of candidates. *)
Theorem no_source_diagnostic_needs_no_source :
  forall w0 ws stdin opt_unit unit seconds opt_seconds p,
  In p g_thermal_path_list ->
  w_stat w0 p = true ->
  Forall (fun e => is_no_source e = false)
         (fst (ccputemp_do_normal w0 ws stdin opt_unit unit
                                  seconds opt_seconds)) /\
  Forall (fun e => is_no_source e = false)
         (fst (ccputemp_do_avg w0 ws opt_unit unit seconds)).
Proof.
  intros w0 ws stdin opt_unit unit seconds opt_seconds p Hin Hs.
  assert (Hp : exists src, ccputemp_get_thermal_path w0 = PathFound src).
  { destruct (first_existing w0) as [q|] eqn:E.
    - exists q. apply locator_first_existing. exact E.
    - pose proof (proj1 (first_existing_none w0) E p Hin) as N.
      rewrite N in Hs. discriminate Hs. }
  destruct Hp as [src Hp]. split.
  - unfold ccputemp_do_normal, locate.
    rewrite Hp, bind_ret, bind_emit. cbn [fst].
    constructor; [reflexivity|].
    rewrite bind_fst. apply Forall_app. split.
    + eapply Forall_impl; [|apply choose_unit_trace].
      intros e ->. reflexivity.
    + destruct (snd (choose_unit stdin opt_unit unit)); try constructor.
      eapply Forall_impl; [|apply normal_loop_alphabet].
      intros e He. destruct e; try discriminate He; reflexivity.
  - unfold ccputemp_do_avg, locate.
    rewrite Hp, bind_ret, bind_emit. cbn [fst].
    constructor; [reflexivity|].
    eapply Forall_impl; [|apply avg_loop_alphabet].
    intros e He. destruct e; try discriminate He; reflexivity.
Qed.

Lemma no_source_diagnostic_needs_no_source_witness :
  let m := machine (line "45000"%string) false true true in
  Forall (fun e => is_no_source e = false)
         (fst (ccputemp_do_normal m [m; locked_machine] [] 1 CELSIUS 3 1)) /\
  Forall (fun e => is_no_source e = false)
         (fst (ccputemp_do_avg m [m; locked_machine] 1 CELSIUS 3)).
Proof.
  intro m.
  apply (no_source_diagnostic_needs_no_source m [m; locked_machine] []
           1 CELSIUS 3 1 thm0).
  - right. right. left. reflexivity.
  - reflexivity.
Defined.

(** ** The unit prompt *)

(** X23: without a unit flag the prompt is repeated until the input
    gives one of the letters c, f and k, in either case; the first such
    letter decides the unit and what follows it is not read. *)
Theorem prompt_takes_first_unit_letter : forall junk ch rest unit,
  Forall (fun c => is_unit_letter c = false) junk ->
  is_unit_letter ch = true ->
  choose_unit (junk ++ ch :: rest) 0 unit =
  (repeat EPrompt (S (List.length junk)),
   Ret (unit_of_char (tolower ch))).
Proof.
  intros junk ch rest unit Hj Hc. unfold choose_unit. cbn [Z.eqb].
  assert (E : prompt_loop (junk ++ ch :: rest) =
              (repeat EPrompt (S (List.length junk)), Ret (tolower ch))).
  { induction Hj as [|c junk Hc' _ IH]; cbn [app prompt_loop].
    - rewrite bind_emit. unfold is_unit_letter in Hc. rewrite Hc. reflexivity.
    - rewrite bind_emit. unfold is_unit_letter in Hc'. rewrite Hc', IH.
      reflexivity. }
  rewrite E. cbn [bind ret]. rewrite app_nil_r. reflexivity.
Qed.

Lemma prompt_takes_first_unit_letter_witness :
  choose_unit (list_ascii_of_string "x1" ++ "F"%char :: list_ascii_of_string "c")
              0 CELSIUS =
  (repeat EPrompt (S (List.length (list_ascii_of_string "x1"))),
   Ret (unit_of_char (tolower "F"%char))).
Proof.
  apply (prompt_takes_first_unit_letter (list_ascii_of_string "x1") "F"%char
           (list_ascii_of_string "c") CELSIUS).
  - repeat constructor.
  - reflexivity.
Defined.

(** X24: without a unit flag, an input that ends before any of the
    letters c, f and k leaves normal mode in its prompt loop for ever:
    no sample is read. *)
Theorem prompt_spins_at_end_of_input :
  forall w0 src ws stdin unit seconds opt_seconds,
  ccputemp_get_thermal_path w0 = PathFound src ->
  Forall (fun c => is_unit_letter c = false) stdin ->
  ccputemp_do_normal w0 ws stdin 0 unit seconds opt_seconds =
  (EVersion :: repeat EPrompt (S (List.length stdin)), Spin).
Proof.
  intros w0 src ws stdin unit seconds opt_seconds Hp Hj.
  unfold ccputemp_do_normal, locate. rewrite Hp, bind_ret, bind_emit.
  unfold choose_unit. cbn [Z.eqb].
  assert (E : prompt_loop stdin =
              (repeat EPrompt (S (List.length stdin)), Spin)).
  { induction Hj as [|c junk Hc _ IH]; cbn [prompt_loop]; [reflexivity|].
    rewrite bind_emit. unfold is_unit_letter in Hc. rewrite Hc, IH.
    reflexivity. }
  rewrite E. reflexivity.
Qed.

Lemma prompt_spins_at_end_of_input_witness :
  let m := machine (line "45000"%string) false true true in
  ccputemp_do_normal m [m; m] (list_ascii_of_string "yes") 0 CELSIUS 2 1 =
  (EVersion :: repeat EPrompt (S (List.length (list_ascii_of_string "yes"))),
   Spin).
Proof.
  intro m.
  apply (prompt_spins_at_end_of_input m thm0 [m; m]
           (list_ascii_of_string "yes") CELSIUS 2 1).
  - reflexivity.
  - repeat constructor.
Defined.

(** ** The options of [main] *)

Lemma atoi_range : forall s, - 2 ^ 31 <= atoi s < 2 ^ 31.
Proof.
  intro s. unfold atoi, to_int.
  pose proof (Z.mod_pos_bound (strtol s + 2 ^ 31) (2 ^ 32) ltac:(reflexivity)).
  lia.
Qed.

Lemma valid_option_cases : forall c,
  valid_option c = true ->
  c = "h"%char \/ is_unit_flag c = true \/ c = "v"%char \/
  c = "s"%char \/ c = "a"%char.
Proof.
  intros c H. unfold valid_option in H.
  rewrite !orb_true_iff, !Ascii.eqb_eq in H. tauto.
Qed.

Lemma unit_flag_cases : forall c,
  is_unit_flag c = true -> c = "C"%char \/ c = "F"%char \/ c = "K"%char.
Proof.
  intros c H. unfold is_unit_flag in H.
  rewrite !orb_true_iff, !Ascii.eqb_eq in H. tauto.
Qed.

Lemma parse_step_h : forall x rest o,
  parse_options (("h"%char, x) :: rest) o = parse_options rest (set_help o).
Proof.
  intros x rest o. cbn [parse_options]. cbn [Ascii.eqb Bool.eqb andb].
  rewrite bind_ret. reflexivity.
Qed.

Lemma parse_step_v : forall x rest o,
  parse_options (("v"%char, x) :: rest) o = parse_options rest (set_version o).
Proof.
  intros x rest o. cbn [parse_options]. cbn [Ascii.eqb Bool.eqb andb].
  rewrite bind_ret. reflexivity.
Qed.

Lemma parse_step_s : forall x rest o,
  parse_options (("s"%char, x) :: rest) o =
  parse_options rest (set_seconds o x).
Proof.
  intros x rest o. cbn [parse_options]. cbn [Ascii.eqb Bool.eqb andb].
  rewrite bind_ret. reflexivity.
Qed.

Lemma parse_step_a : forall x rest o,
  parse_options (("a"%char, x) :: rest) o = parse_options rest (set_avg o).
Proof.
  intros x rest o. cbn [parse_options]. cbn [Ascii.eqb Bool.eqb andb].
  rewrite bind_ret. reflexivity.
Qed.

Lemma parse_step_unit : forall c x rest o,
  is_unit_flag c = true -> opt_unit o <> 1 ->
  parse_options ((c, x) :: rest) o =
  parse_options rest (set_unit_val o (unit_of_flag c)).
Proof.
  intros c x rest o Hc Ho. apply Z.eqb_neq in Ho.
  destruct (unit_flag_cases c Hc) as [->|[->| ->]];
    cbn [parse_options]; cbn [Ascii.eqb Bool.eqb andb];
    unfold set_unit; rewrite Ho, bind_ret; reflexivity.
Qed.

Lemma parse_step_unit_again : forall c x rest o,
  is_unit_flag c = true -> opt_unit o = 1 ->
  parse_options ((c, x) :: rest) o = ([EMultipleUnits], Ret (inl (-1))).
Proof.
  intros c x rest o Hc Ho.
  destruct (unit_flag_cases c Hc) as [->|[->| ->]];
    cbn [parse_options]; cbn [Ascii.eqb Bool.eqb andb];
    unfold set_unit; rewrite Ho; reflexivity.
Qed.

Lemma parse_step_unknown : forall c x rest o,
  valid_option c = false ->
  parse_options ((c, x) :: rest) o = ([EHelp], Ret (inl (-1))).
Proof.
  intros c x rest o H. unfold valid_option, is_unit_flag in H.
  rewrite !orb_false_iff in H.
  destruct H as [[[[Hh [[HC HF] HK]] Hv] Hs] Ha].
  cbn [parse_options]. rewrite Hh, HC, HF, HK, Hv, Hs, Ha. reflexivity.
Qed.

Lemma unit_flags_cons : forall c x args,
  unit_flags ((c, x) :: args) =
  ((if is_unit_flag c then 1 else 0) + unit_flags args)%nat.
Proof.
  intros c x args. unfold unit_flags. cbn [filter fst].
  destruct (is_unit_flag c); reflexivity.
Qed.

Lemma parse_second_unit_flag : forall pre rest o,
  Forall (fun a => valid_option (fst a) = true) pre ->
  (opt_unit o = 1 /\ (1 <= unit_flags pre)%nat) \/ (2 <= unit_flags pre)%nat ->
  parse_options (pre ++ rest) o = ([EMultipleUnits], Ret (inl (-1))).
Proof.
  induction pre as [|[c x] pre IH]; intros rest o Hv Hu.
  - cbn in Hu. lia.
  - inversion Hv as [|? ? Hc Hv']; subst. cbn [fst] in Hc.
    rewrite unit_flags_cons in Hu. cbn [app].
    destruct (valid_option_cases c Hc) as [->|[Hf|[->|[->| ->]]]].
    + rewrite parse_step_h. apply IH; [exact Hv'|]. cbn in Hu. exact Hu.
    + rewrite Hf in Hu. destruct (Z.eq_dec (opt_unit o) 1) as [E|E].
      * apply parse_step_unit_again; assumption.
      * rewrite parse_step_unit by assumption.
        apply IH; [exact Hv'|]. left. split; [reflexivity | lia].
    + rewrite parse_step_v. apply IH; [exact Hv'|]. cbn in Hu. exact Hu.
    + rewrite parse_step_s. apply IH; [exact Hv'|]. cbn in Hu. exact Hu.
    + rewrite parse_step_a. apply IH; [exact Hv'|]. cbn in Hu. exact Hu.
Qed.

(** X25: as soon as the options hold two unit flags, be they the same
    flag twice, [main] prints the diagnostic and returns -1 before any
    locating or sampling. *)
Theorem main_rejects_second_unit_flag : forall pre rest stdin w0 ws,
  Forall (fun a => valid_option (fst a) = true) pre ->
  (2 <= unit_flags pre)%nat ->
  main (pre ++ rest) stdin w0 ws = ([EMultipleUnits], Ret (-1)).
Proof.
  intros pre rest stdin w0 ws Hv Hu. unfold main.
  rewrite (parse_second_unit_flag pre rest options_init Hv (or_intror Hu)).
  reflexivity.
Qed.

Lemma main_rejects_second_unit_flag_witness :
  main ([("a"%char, []); ("K"%char, []); ("s"%char, list_ascii_of_string "3");
         ("K"%char, [])] ++ [("h"%char, [])]) [] bare_machine [] =
  ([EMultipleUnits], Ret (-1)).
Proof.
  apply (main_rejects_second_unit_flag
           [("a"%char, []); ("K"%char, []);
            ("s"%char, list_ascii_of_string "3"); ("K"%char, [])]).
  - repeat constructor.
  - cbn. lia.
Defined.

Lemma has_option_cons : forall c d x args,
  has_option c ((d, x) :: args) = (Ascii.eqb d c || has_option c args)%bool.
Proof. reflexivity. Qed.

Lemma set_seconds_ok : forall o x, options_ok o -> options_ok (set_seconds o x).
Proof.
  intros o x [Hu Hs]. split; [exact Hu|]. cbn [set_seconds opt_seconds_val].
  pose proof (atoi_range (c_str x)). unfold g_default_runtime_secs.
  destruct (atoi (c_str x) <? 1) eqn:L; [lia|]. apply Z.ltb_ge in L. lia.
Qed.

Ltac option_fields :=
  rewrite ?has_option_cons, ?unit_flags_cons;
  cbn [Ascii.eqb Bool.eqb andb orb is_unit_flag Nat.add].

Ltac by_option :=
  try match goal with
      | |- context [has_option ?c ?a] => destruct (has_option c a)
      end;
  reflexivity.

Ltac close_fields Fs Fu :=
  let H := fresh "H" in
  split; [by_option|]; split; [by_option|]; split; [by_option|];
  split;
    [ intro H; first [discriminate H | exact (Fs H)]
    | intro H; first [discriminate H | exact (Fu H)] ].

(** Options that are all known and hold at most one unit flag are read to
    the end; the option variables then hold what the options say. *)
Lemma parse_valid : forall pre o,
  Forall (fun a => valid_option (fst a) = true) pre ->
  options_ok o ->
  (unit_flags pre + (if (opt_unit o =? 1)%Z then 1 else 0) <= 1)%nat ->
  exists o',
    options_ok o' /\
    (forall rest, parse_options (pre ++ rest) o = parse_options rest o') /\
    opt_help o' = (if has_option "h" pre then 1 else opt_help o) /\
    opt_version o' = (if has_option "v" pre then 1 else opt_version o) /\
    opt_avg o' = (if has_option "a" pre then 1 else opt_avg o) /\
    (has_option "s" pre = false ->
     opt_seconds o' = opt_seconds o /\
     opt_seconds_val o' = opt_seconds_val o) /\
    (unit_flags pre = 0%nat ->
     opt_unit o' = opt_unit o /\ opt_unit_val o' = opt_unit_val o).
Proof.
  induction pre as [|[c x] pre IH]; intros o Hv Hok Hu.
  - exists o. split; [exact Hok|]. repeat split; auto.
  - inversion Hv as [|? ? Hc Hv']; subst. cbn [fst] in Hc.
    rewrite unit_flags_cons in Hu.
    destruct (valid_option_cases c Hc) as [->|[Hf|[->|[->| ->]]]].
    + destruct (IH (set_help o) Hv' Hok Hu)
        as (o' & Ok' & P & Fh & Fv & Fa & Fs & Fu).
      exists o'. split; [exact Ok'|]. split.
      { intro rest. cbn [app]. rewrite parse_step_h. apply P. }
      option_fields. rewrite Fh, Fv, Fa.
      cbn [set_help opt_help opt_version opt_avg].
      close_fields Fs Fu.
    + rewrite Hf in Hu.
      assert (Ho : opt_unit o <> 1).
      { intro E. rewrite E in Hu. cbn in Hu. lia. }
      assert (Ok1 : options_ok (set_unit_val o (unit_of_flag c)))
        by (destruct Hok as [_ Hs]; split; [right; reflexivity | exact Hs]).
      destruct (IH (set_unit_val o (unit_of_flag c)) Hv' Ok1)
        as (o' & Ok' & P & Fh & Fv & Fa & Fs & Fu).
      { cbn [set_unit_val opt_unit Z.eqb Pos.eqb].
        apply Z.eqb_neq in Ho. rewrite Ho in Hu. lia. }
      exists o'. split; [exact Ok'|]. split.
      { intro rest. cbn [app]. rewrite parse_step_unit by assumption.
        apply P. }
      rewrite ?has_option_cons, ?unit_flags_cons, Hf, Fh, Fv, Fa.
      cbn [set_unit_val opt_help opt_version opt_avg Nat.add].
      destruct (unit_flag_cases c Hf) as [->|[->| ->]];
        cbn [Ascii.eqb Bool.eqb andb orb]; close_fields Fs Fu.
    + destruct (IH (set_version o) Hv' Hok Hu)
        as (o' & Ok' & P & Fh & Fv & Fa & Fs & Fu).
      exists o'. split; [exact Ok'|]. split.
      { intro rest. cbn [app]. rewrite parse_step_v. apply P. }
      option_fields. rewrite Fh, Fv, Fa.
      cbn [set_version opt_help opt_version opt_avg].
      close_fields Fs Fu.
    + destruct (IH (set_seconds o x) Hv' (set_seconds_ok o x Hok) Hu)
        as (o' & Ok' & P & Fh & Fv & Fa & Fs & Fu).
      exists o'. split; [exact Ok'|]. split.
      { intro rest. cbn [app]. rewrite parse_step_s. apply P. }
      option_fields. rewrite Fh, Fv, Fa.
      cbn [set_seconds opt_help opt_version opt_avg].
      close_fields Fs Fu.
    + destruct (IH (set_avg o) Hv' Hok Hu)
        as (o' & Ok' & P & Fh & Fv & Fa & Fs & Fu).
      exists o'. split; [exact Ok'|]. split.
      { intro rest. cbn [app]. rewrite parse_step_a. apply P. }
      option_fields. rewrite Fh, Fv, Fa.
      cbn [set_avg opt_help opt_version opt_avg].
      close_fields Fs Fu.
Qed.

Lemma bind_nil : forall (A B : Type) (a : A) (k : A -> run B),
  bind ([], Ret a) k = k a.
Proof. intros A B a k. apply (bind_ret A B a k). Qed.

Lemma options_init_ok : options_ok options_init.
Proof.
  split; [left; reflexivity|].
  unfold options_init, g_default_runtime_secs. cbn [opt_seconds_val]. lia.
Qed.

Lemma parse_total : forall args o,
  options_ok o ->
  parse_options args o = ([EMultipleUnits], Ret (inl (-1))) \/
  parse_options args o = ([EHelp], Ret (inl (-1))) \/
  exists o', options_ok o' /\ parse_options args o = ([], Ret (inr o')).
Proof.
  induction args as [|[c x] args IH]; intros o Hok.
  - right. right. exists o. split; [exact Hok | reflexivity].
  - destruct (valid_option c) eqn:Hc.
    + destruct (valid_option_cases c Hc) as [->|[Hf|[->|[->| ->]]]].
      * rewrite parse_step_h. apply IH. exact Hok.
      * destruct Hok as [[H0|H1] Hs].
        -- rewrite (parse_step_unit c x args o Hf) by (rewrite H0; discriminate).
           apply IH. split; [right; reflexivity | exact Hs].
        -- left. apply parse_step_unit_again; assumption.
      * rewrite parse_step_v. apply IH. exact Hok.
      * rewrite parse_step_s. apply IH. apply set_seconds_ok. exact Hok.
      * rewrite parse_step_a. apply IH. exact Hok.
    + right. left. apply parse_step_unknown. exact Hc.
Qed.

(** X26: whatever its options, [main] ends in one of six ways: the
    multiple-units error (-1), the help text for an unknown option (-1),
    the help text (0), the version line (0), or one call of a run mode,
    handed a unit flag of 0 or 1 and a duration from 1 to [INT_MAX]. *)
Theorem main_outcomes : forall args stdin w0 ws,
  main args stdin w0 ws = ([EMultipleUnits], Ret (-1)) \/
  main args stdin w0 ws = ([EHelp], Ret (-1)) \/
  main args stdin w0 ws = ([EHelp], Ret 0) \/
  main args stdin w0 ws = ([EVersion], Ret 0) \/
  (exists ou u s,
     (ou = 0 \/ ou = 1) /\ 1 <= s < 2 ^ 31 /\
     main args stdin w0 ws = ccputemp_do_avg w0 ws ou u s) \/
  (exists ou u s os,
     (ou = 0 \/ ou = 1) /\ 1 <= s < 2 ^ 31 /\
     main args stdin w0 ws = ccputemp_do_normal w0 ws stdin ou u s os).
Proof.
  intros args stdin w0 ws. unfold main.
  destruct (parse_total args options_init options_init_ok)
    as [E|[E|(o & [Hu Hs] & E)]]; rewrite E.
  - left. reflexivity.
  - right. left. reflexivity.
  - rewrite bind_nil.
    destruct (opt_help o =? 1); [right; right; left; reflexivity|].
    destruct (opt_version o =? 1); [right; right; right; left; reflexivity|].
    destruct (opt_avg o =? 1).
    + right. right. right. right. left.
      exists (opt_unit o), (opt_unit_val o), (opt_seconds_val o). auto.
    + right. right. right. right. right.
      exists (opt_unit o), (opt_unit_val o), (opt_seconds_val o),
             (opt_seconds o). auto.
Qed.

Lemma parse_valid_all : forall args,
  Forall (fun a => valid_option (fst a) = true) args ->
  (unit_flags args <= 1)%nat ->
  exists o,
    options_ok o /\
    (forall rest, parse_options (args ++ rest) options_init
                  = parse_options rest o) /\
    opt_help o = (if has_option "h" args then 1 else 0) /\
    opt_version o = (if has_option "v" args then 1 else 0) /\
    opt_avg o = (if has_option "a" args then 1 else 0) /\
    (has_option "s" args = false ->
     opt_seconds o = 0 /\ opt_seconds_val o = g_default_runtime_secs) /\
    (unit_flags args = 0%nat ->
     opt_unit o = 0 /\ opt_unit_val o = g_default_temp_unit).
Proof.
  intros args Hv Hu.
  apply (parse_valid args options_init Hv options_init_ok).
  cbn. lia.
Qed.

(** X27: among known options with at most one unit flag, the help
    option wins over everything else and the version option over
    everything but help: [main] prints the text and returns 0 without
    locating, prompting or sampling. *)
Theorem main_help_and_version : forall args stdin w0 ws,
  Forall (fun a => valid_option (fst a) = true) args ->
  (unit_flags args <= 1)%nat ->
  (has_option "h" args || has_option "v" args)%bool = true ->
  main args stdin w0 ws =
  ([if has_option "h" args then EHelp else EVersion], Ret 0).
Proof.
  intros args stdin w0 ws Hv Hu Hhv.
  destruct (parse_valid_all args Hv Hu) as (o & _ & P & Fh & Fv & _).
  unfold main. rewrite <- (app_nil_r args) at 1. rewrite P.
  cbn [parse_options]. rewrite bind_ret, Fh, Fv.
  destruct (has_option "h" args); [reflexivity|].
  cbn [orb] in Hhv. rewrite Hhv. reflexivity.
Qed.

Lemma main_help_and_version_witness :
  main [("a"%char, []); ("v"%char, []); ("F"%char, []); ("h"%char, [])]
       [] bare_machine [] =
  ([if has_option "h" [("a"%char, []); ("v"%char, []); ("F"%char, []);
                       ("h"%char, [])]
    then EHelp else EVersion], Ret 0).
Proof.
  apply (main_help_and_version
           [("a"%char, []); ("v"%char, []); ("F"%char, []); ("h"%char, [])]).
  - repeat constructor.
  - cbn. lia.
  - reflexivity.
Defined.

(** X28: the first unknown option, after known options with at most one
    unit flag, makes [main] print the help text and return -1, whatever
    follows and even when help or version was asked for before. *)
Theorem main_unknown_option : forall pre c x rest stdin w0 ws,
  Forall (fun a => valid_option (fst a) = true) pre ->
  (unit_flags pre <= 1)%nat ->
  valid_option c = false ->
  main (pre ++ (c, x) :: rest) stdin w0 ws = ([EHelp], Ret (-1)).
Proof.
  intros pre c x rest stdin w0 ws Hv Hu Hc.
  destruct (parse_valid_all pre Hv Hu) as (o & _ & P & _).
  unfold main. rewrite P, (parse_step_unknown c x rest o Hc). reflexivity.
Qed.

Lemma main_unknown_option_witness :
  main ([("v"%char, []); ("C"%char, [])] ++ ("?"%char, []) :: [("a"%char, [])])
       [] bare_machine [] = ([EHelp], Ret (-1)).
Proof.
  apply (main_unknown_option [("v"%char, []); ("C"%char, [])] "?"%char).
  - repeat constructor.
  - cbn. lia.
  - reflexivity.
Defined.

(** X29: with the average flag and neither a unit flag nor a seconds
    option (nor help or version), [main] runs average mode in Celsius
    for the default 5 seconds; the standard input plays no part. *)
Theorem main_average_defaults : forall args stdin w0 ws,
  Forall (fun a => valid_option (fst a) = true) args ->
  has_option "a" args = true ->
  has_option "h" args = false ->
  has_option "v" args = false ->
  has_option "s" args = false ->
  unit_flags args = 0%nat ->
  main args stdin w0 ws =
  ccputemp_do_avg w0 ws 0 CELSIUS g_default_runtime_secs.
Proof.
  intros args stdin w0 ws Hv Ha Hh Hver Hs Hu.
  destruct (parse_valid_all args Hv ltac:(lia))
    as (o & _ & P & Fh & Fv & Fa & Fs & Fu).
  destruct (Fs Hs) as [_ Es]. destruct (Fu Hu) as [Eu Euv].
  rewrite Hh in Fh. rewrite Hver in Fv. rewrite Ha in Fa.
  unfold main. rewrite <- (app_nil_r args) at 1. rewrite P.
  cbn [parse_options]. rewrite bind_ret, Fh, Fv, Fa, Eu, Euv, Es.
  reflexivity.
Qed.

Lemma main_average_defaults_witness :
  main [("a"%char, []); ("a"%char, [])] (list_ascii_of_string "k")
       bare_machine [] =
  ccputemp_do_avg bare_machine [] 0 CELSIUS g_default_runtime_secs.
Proof.
  apply (main_average_defaults [("a"%char, []); ("a"%char, [])]).
  - repeat constructor.
  - reflexivity.
  - reflexivity.
  - reflexivity.
  - reflexivity.
  - reflexivity.
Defined.

(** ** Exactness of the conversion to [float] *)

Lemma binary_round_aux_exact : forall sx mz ez,
  Zpos (digits2_pos mz) = 24 -> -149 <= ez <= 104 ->
  binary_round_aux 24 128 sx (Zpos mz) ez loc_Exact = S754_finite sx mz ez.
Proof.
  intros sx mz ez Hd He.
  unfold binary_round_aux, shr_fexp, Zdigits2. rewrite Hd.
  unfold fexp, emin.
  replace (Z.max (24 + ez - 24) (3 - 128 - 24) - ez) with 0 by lia.
  cbn [shr shr_record_of_loc shr_m loc_of_shr_record shr_r shr_s round_nearest_even].
  rewrite Hd.
  replace (Z.max (24 + ez - 24) (3 - 128 - 24) - ez) with 0 by lia.
  cbn [shr shr_m].
  replace (ez <=? 128 - 24) with true by (symmetry; apply Z.leb_le; lia).
  reflexivity.
Qed.

Lemma digits2_iter_xO : forall p m,
  digits2_pos (Pos.iter xO m p) = (digits2_pos m + p)%positive.
Proof.
  intros p m. induction p as [|p IH] using Pos.peano_ind.
  - cbn. lia.
  - rewrite Pos.iter_succ. cbn [digits2_pos]. rewrite IH. lia.
Qed.

Lemma Zpos_iter_xO : forall p m,
  Zpos (Pos.iter xO m p) = Zpos m * 2 ^ Zpos p.
Proof.
  intros p m. induction p as [|p IH] using Pos.peano_ind.
  - cbn. lia.
  - rewrite Pos.iter_succ, Pos2Z.inj_xO, IH, Pos2Z.inj_succ, Z.pow_succ_r by lia.
    lia.
Qed.

Lemma digits2_lower : forall m, 2 ^ (Zpos (digits2_pos m) - 1) <= Zpos m.
Proof.
  induction m as [m IH|m IH|]; cbn [digits2_pos].
  - rewrite Pos2Z.inj_succ.
    replace (Z.succ (Zpos (digits2_pos m)) - 1)
      with (Z.succ (Zpos (digits2_pos m) - 1)) by lia.
    rewrite Z.pow_succ_r by lia. lia.
  - rewrite Pos2Z.inj_succ.
    replace (Z.succ (Zpos (digits2_pos m)) - 1)
      with (Z.succ (Zpos (digits2_pos m) - 1)) by lia.
    rewrite Z.pow_succ_r by lia. lia.
  - cbn. lia.
Qed.

Lemma digits2_small : forall m, Zpos m < 2 ^ 24 -> Zpos (digits2_pos m) <= 24.
Proof.
  intros m H. pose proof (digits2_lower m) as L.
  destruct (Z_le_gt_dec (Zpos (digits2_pos m)) 24) as [|G]; [assumption|].
  exfalso.
  assert (2 ^ 24 <= 2 ^ (Zpos (digits2_pos m) - 1))
    by (apply Z.pow_le_mono_r; lia).
  lia.
Qed.

Lemma binary_round_exact : forall sx m,
  Zpos m < 2 ^ 24 ->
  exists mz ez,
    binary_round 24 128 sx m 0 = S754_finite sx mz ez /\
    ez <= 0 /\ Zpos mz = Zpos m * 2 ^ (- ez).
Proof.
  intros sx m H. pose proof (digits2_small m H) as D.
  unfold binary_round, fexp, emin. rewrite Z.add_0_r.
  replace (Z.max (Zpos (digits2_pos m) - 24) (3 - 128 - 24))
    with (Zpos (digits2_pos m) - 24) by lia.
  unfold shl_align. rewrite Z.sub_0_r.
  destruct (Zpos (digits2_pos m) - 24) as [|p|p] eqn:E.
  - exists m, 0. split; [apply binary_round_aux_exact; lia|]. cbn. lia.
  - lia.
  - exists (Pos.iter xO m p), (Zneg p). split.
    + apply binary_round_aux_exact; [rewrite digits2_iter_xO|]; lia.
    + split; [lia|]. rewrite Zpos_iter_xO. reflexivity.
Qed.

Lemma scaled_value : forall m mz ez,
  ez <= 0 -> Zpos mz = Zpos m * 2 ^ (- ez) ->
  (inject_Z (Zpos mz) * Qpower 2 ez == inject_Z (Zpos m))%Q.
Proof.
  intros m mz ez He Hm. rewrite Hm, inject_Z_mult.
  replace ez with (- - ez) at 2 by lia.
  rewrite Qpower_opp.
  change 2%Q with (inject_Z 2).
  rewrite <- Zpower_Qpower by lia.
  assert (P : 0 < 2 ^ (- ez)) by (apply Z.pow_pos_nonneg; lia).
  assert (N : ~ (inject_Z (2 ^ (- ez)) == 0)%Q).
  { intro E. unfold Qeq in E. cbn in E. lia. }
  field. exact N.
Qed.

Lemma of_Z_exact : forall k,
  - 2 ^ 24 < k < 2 ^ 24 ->
  F32.is_finite (F32.of_Z k) = true /\
  (F32.to_Q (F32.of_Z k) == inject_Z k)%Q.
Proof.
  intros [|m|m] H; unfold F32.of_Z, binary_normalize.
  - split; reflexivity.
  - destruct (binary_round_exact false m ltac:(lia)) as (mz & ez & E & He & Hm).
    unfold F32.prec, F32.emax. rewrite E. split; [reflexivity|].
    cbn [F32.to_Q]. apply scaled_value; assumption.
  - destruct (binary_round_exact true m ltac:(lia)) as (mz & ez & E & He & Hm).
    unfold F32.prec, F32.emax. rewrite E. split; [reflexivity|].
    cbn [F32.to_Q]. rewrite (scaled_value m mz ez He Hm).
    reflexivity.
Qed.

(** X4: the value the reader delivers is a finite [float] that denotes
    exactly the whole number of degrees [atoi (line) / 1000]: the
    conversion to [float] rounds nothing away. *)
Theorem reader_value_exact : forall w p v,
  ccputemp_get_thermal_value_from_file w p = Some v ->
  exists k : Z,
    - 2147483 <= k <= 2147483 /\ v = F32.of_Z k /\
    F32.is_finite v = true /\ (F32.to_Q v == inject_Z k)%Q.
Proof.
  intros w p v H.
  destruct (reader_whole_degrees w p v H) as (k & -> & Hk).
  exists k. split; [exact Hk|]. split; [reflexivity|].
  apply of_Z_exact. change (2 ^ 24) with 16777216. lia.
Qed.

Lemma reader_value_exact_witness :
  exists k : Z,
    - 2147483 <= k <= 2147483 /\ F32.of_Z (-5) = F32.of_Z k /\
    F32.is_finite (F32.of_Z (-5)) = true /\
    (F32.to_Q (F32.of_Z (-5)) == inject_Z k)%Q.
Proof.
  apply (reader_value_exact (machine (line "-5999"%string) false true true)
           (Some thm0) (F32.of_Z (-5))).
  reflexivity.
Defined.

Lemma celsius_sample_is_number : forall src w,
  readable src w -> F32.is_nan (sample_of src CELSIUS w) = false.
Proof.
  intros src w Hr. unfold sample_of, ccputemp_get_unit_temp_from_file.
  unfold readable in Hr.
  destruct (ccputemp_get_thermal_value_from_file w (Some src)) as [v|] eqn:E;
    [|contradiction].
  cbn [ccputemp_convert_unit_from_celsius].
  destruct (reader_whole_degrees w (Some src) v E) as (k & -> & Hk).
  destruct (of_Z_exact k) as [F _]; [change (2 ^ 24) with 16777216; lia|].
  destruct (F32.of_Z k); try discriminate F; reflexivity.
Qed.

(** X7: in Celsius the bounds need no assumption on the values: after
    any successful reads, the lowest temperature kept is at most every
    sample and the highest at least every sample. *)
Theorem celsius_samples_within_bounds : forall src ws,
  Forall (readable src) ws ->
  Forall (fun x =>
            F32.le (st_min (stats_after (samples src CELSIUS ws) stats_init))
                   x = true /\
            F32.le x (st_max (stats_after (samples src CELSIUS ws)
                                          stats_init)) = true)
         (samples src CELSIUS ws).
Proof.
  intros src ws Hr.
  apply (stats_bounds (samples src CELSIUS ws) stats_init);
    try reflexivity.
  unfold samples. apply Forall_map.
  eapply Forall_impl; [|exact Hr].
  intros w Hw. apply celsius_sample_is_number. exact Hw.
Qed.

Lemma celsius_samples_within_bounds_witness :
  let m := machine (line "45000"%string) false true true in
  let m' := machine (line "-7000"%string) false true true in
  Forall (fun x =>
            F32.le (st_min (stats_after (samples thm0 CELSIUS [m; m'])
                                        stats_init)) x = true /\
            F32.le x (st_max (stats_after (samples thm0 CELSIUS [m; m'])
                                          stats_init)) = true)
         (samples thm0 CELSIUS [m; m']).
Proof.
  intros m m'.
  apply (celsius_samples_within_bounds thm0 [m; m']).
  repeat constructor; unfold readable; vm_compute; discriminate.
Defined.

(** ** More witnesses *)

Lemma conversion_accuracy_witness :
  (conversion_error FAHRENHEIT 100 <= 1 # 20000)%Q.
Proof.
  apply (conversion_accuracy FAHRENHEIT 100).
  unfold zrange. apply in_map_iff. exists 400%nat. split; [reflexivity|].
  apply in_seq. lia.
Defined.

Lemma do_log_never_creates_witness :
  w_stat (machine (line "45000"%string) false true true)
         g_default_log_file = true.
Proof.
  apply (do_log_never_creates
           (machine (line "45000"%string) false true true)
           (Some g_default_log_file) F32.zero F32.zero F32.zero CELSIUS 2).
  left. reflexivity.
Defined.

Lemma avg_read_failure_aborts_run_witness :
  let m := machine (line "45000"%string) false true true in
  ccputemp_do_avg m ([m] ++ locked_machine :: [m]) 1 CELSIUS 3 =
  (EVersion :: repeat ESleep (List.length [m]) ++ [EReadError thm0], Ret (-1)).
Proof.
  intro m.
  apply (avg_read_failure_aborts_run m thm0 [m] locked_machine [m]
           1 CELSIUS 3).
  - reflexivity.
  - repeat constructor; unfold readable; vm_compute; discriminate.
  - reflexivity.
  - lia.
  - vm_compute. reflexivity.
Defined.

(** ** Bounded runs *)

Lemma samples_are_the_reads : forall src unit ws,
  Forall (readable src) ws ->
  Forall2 (fun w v =>
             ccputemp_get_unit_temp_from_file w (Some src) unit = Some v)
          ws (samples src unit ws).
Proof.
  intros src unit ws H. induction H as [|w ws Hw _ IH]; cbn [samples map].
  - constructor.
  - constructor; [apply readable_sample; exact Hw | exact IH].
Qed.

(** C9: a bounded run of duration [D >= 1] in which no SIGINT is seen and
    every read succeeds makes exactly [D] ticks and collects exactly [D]
    samples, the values of its [D] reads, in normal mode with the seconds
    flag and in average mode.  Normal mode prints [D] lines, the k-th
    with the mean of the first k samples, leaves its loop with the count
    [D] and the sum of the [D] samples, and reports from them; average
    mode sleeps [D] times and prints the sum of the [D] samples divided
    by [D]. *)
Theorem bounded_run_ticks :
  forall w0 src ws w_end rest stdin opt_unit unit ptr u D opt_seconds,
  1 <= D < 2 ^ 31 ->
  ccputemp_get_thermal_path w0 = PathFound src ->
  choose_unit stdin opt_unit unit = (ptr, Ret u) ->
  opt_seconds <> 0 ->
  Forall (calm src) ws ->
  Z.of_nat (List.length ws) = D ->
  (Forall2 (fun w v =>
              ccputemp_get_unit_temp_from_file w (Some src) u = Some v)
           ws (samples src u ws) /\
   List.length (samples src u ws) = Z.to_nat D /\
   st_i (stats_after (samples src u ws) stats_init) = D /\
   st_sum (stats_after (samples src u ws) stats_init)
     = fsum (samples src u ws) /\
   ccputemp_do_normal w0 (ws ++ w_end :: rest) stdin opt_unit unit
                      D opt_seconds =
   (EVersion :: ptr ++ tick_trace u (samples src u ws) stats_init ++
      fst (normal_finish w_end u
             (stats_after (samples src u ws) stats_init)),
    snd (normal_finish w_end u
           (stats_after (samples src u ws) stats_init))) /\
   ticks (fst (ccputemp_do_normal w0 (ws ++ w_end :: rest) stdin
                 opt_unit unit D opt_seconds)) = Z.to_nat D /\
   tick_lines (fst (ccputemp_do_normal w0 (ws ++ w_end :: rest) stdin
                      opt_unit unit D opt_seconds)) =
   map (fun k => (F32.div (fsum (firstn k (samples src u ws)))
                          (F32.of_Z (Z.of_nat k)), Z.of_nat k))
       (seq 1 (Z.to_nat D)) /\
   summary_of (fst (ccputemp_do_normal w0 (ws ++ w_end :: rest) stdin
                      opt_unit unit D opt_seconds)) =
   Some (fold_left Macro.max (samples src u ws) F32.FLT_MIN,
         fold_left Macro.min (samples src u ws) F32.FLT_MAX,
         F32.div (fsum (samples src u ws)) (F32.of_Z (D + 1))) /\
   (snd (ccputemp_do_normal w0 (ws ++ w_end :: rest) stdin
           opt_unit unit D opt_seconds) = Ret 0 \/
    snd (ccputemp_do_normal w0 (ws ++ w_end :: rest) stdin
           opt_unit unit D opt_seconds) = Fault NullStream)) /\
  (Forall2 (fun w v =>
              ccputemp_get_unit_temp_from_file w (Some src) unit = Some v)
           ws (samples src unit ws) /\
   ccputemp_do_avg w0 (ws ++ rest) opt_unit unit D =
   (EVersion :: repeat ESleep (Z.to_nat D) ++
      [EAverage (F32.div (fsum (samples src unit ws)) (F32.of_Z D))
                (ccputemp_temp_unit_t_to_str unit)], Ret 0) /\
   ticks (fst (ccputemp_do_avg w0 (ws ++ rest) opt_unit unit D))
     = Z.to_nat D).
Proof.
  intros w0 src ws w_end rest stdin opt_unit unit ptr u D opt_seconds
         HD Hp Hu Ho Hc Hl.
  assert (Hn : Z.to_nat D = List.length ws) by lia.
  assert (Hr : Forall (readable src) ws)
    by (eapply Forall_impl; [|exact Hc]; intros w [_ H]; exact H).
  assert (Hs : seconds_in_force opt_seconds D = D).
  { unfold seconds_in_force. destruct (Z.ltb_spec D 1); [lia|].
    rewrite andb_false_r. reflexivity. }
  assert (Hsz : to_size_t D = D) by (apply to_size_t_small; lia).
  assert (Hb : within_bound opt_seconds (seconds_in_force opt_seconds D)
                            (List.length ws))
    by (right; rewrite Hs, Hsz; lia).
  assert (He : loop_ends opt_seconds (seconds_in_force opt_seconds D)
                         (List.length ws) w_end)
    by (right; split; [exact Ho | rewrite Hs, Hsz; lia]).
  pose proof (prompt_trace_of_choice _ _ _ _ _ Hu) as T.
  destruct (do_normal_run w0 src ws w_end rest stdin opt_unit unit ptr u
              D opt_seconds Hp Hu Hc ltac:(lia) Hb He) as [Hi E].
  split.
  - split; [apply samples_are_the_reads; exact Hr|].
    split; [unfold samples; rewrite length_map; lia|].
    split; [rewrite Hi; exact Hl|].
    split; [apply stats_after_sum|].
    split; [exact E|].
    rewrite E. cbn [fst snd].
    split.
    { change (ticks (EVersion :: ?t)) with (ticks t).
      rewrite !ticks_app, ticks_tick_trace, normal_finish_ticks.
      destruct (prompts_are_silent ptr T) as [-> _].
      unfold samples. rewrite length_map. lia. }
    split.
    { cbn [tick_lines].
      rewrite !tick_lines_app, tick_lines_finish, app_nil_r.
      destruct (prompts_have_no_lines ptr T) as [-> _]. cbn [app].
      rewrite tick_lines_tick_trace
        by (cbn [stats_init st_i]; unfold samples; rewrite ?length_map; lia).
      unfold samples at 2. rewrite length_map, Hn. reflexivity. }
    split; [|apply normal_finish_result].
    cbn [summary_of].
    rewrite summary_of_skip by (apply prompts_are_silent; exact T).
    rewrite summary_of_skip by apply tick_trace_no_report.
    rewrite normal_finish_summary by (rewrite Hi; lia).
    rewrite stats_after_max, stats_after_min, stats_after_sum, Hi, Hl.
    rewrite to_size_t_small by lia. reflexivity.
  - split; [apply samples_are_the_reads; exact Hr|].
    assert (Ea : ccputemp_do_avg w0 (ws ++ rest) opt_unit unit D =
                 (EVersion :: repeat ESleep (Z.to_nat D) ++
                    [EAverage (F32.div (fsum (samples src unit ws))
                                       (F32.of_Z D))
                              (ccputemp_temp_unit_t_to_str unit)], Ret 0)).
    { rewrite (do_avg_located _ _ _ _ _ _ Hp).
      assert (Hf : effective_seconds D = D)
        by (unfold effective_seconds; destruct (Z.ltb_spec D 1);
            [lia | reflexivity]).
      rewrite Hf, avg_loop_ticks by (try assumption; lia).
      rewrite avg_loop_done by lia.
      cbn [fst snd]. rewrite Hn. reflexivity. }
    split; [exact Ea|]. rewrite Ea. cbn [fst].
    change (ticks (EVersion :: ?t)) with (ticks t).
    rewrite ticks_app, ticks_repeat_sleep. cbn. lia.
Qed.

Lemma bounded_run_ticks_witness :
  let m := machine (line "45000"%string) false true true in
  let m' := machine (line "47000"%string) false true true in
  (Forall2 (fun w v =>
              ccputemp_get_unit_temp_from_file w (Some thm0) CELSIUS = Some v)
           [m; m'] (samples thm0 CELSIUS [m; m']) /\
   List.length (samples thm0 CELSIUS [m; m']) = Z.to_nat 2 /\
   st_i (stats_after (samples thm0 CELSIUS [m; m']) stats_init) = 2 /\
   st_sum (stats_after (samples thm0 CELSIUS [m; m']) stats_init)
     = fsum (samples thm0 CELSIUS [m; m']) /\
   ccputemp_do_normal m ([m; m'] ++ m :: []) [] 1 CELSIUS 2 1 =
   (EVersion :: [] ++ tick_trace CELSIUS (samples thm0 CELSIUS [m; m'])
                                 stats_init ++
      fst (normal_finish m CELSIUS
             (stats_after (samples thm0 CELSIUS [m; m']) stats_init)),
    snd (normal_finish m CELSIUS
           (stats_after (samples thm0 CELSIUS [m; m']) stats_init))) /\
   ticks (fst (ccputemp_do_normal m ([m; m'] ++ m :: []) [] 1 CELSIUS 2 1))
     = Z.to_nat 2 /\
   tick_lines (fst (ccputemp_do_normal m ([m; m'] ++ m :: []) []
                      1 CELSIUS 2 1)) =
   map (fun k => (F32.div (fsum (firstn k (samples thm0 CELSIUS [m; m'])))
                          (F32.of_Z (Z.of_nat k)), Z.of_nat k))
       (seq 1 (Z.to_nat 2)) /\
   summary_of (fst (ccputemp_do_normal m ([m; m'] ++ m :: []) []
                      1 CELSIUS 2 1)) =
   Some (fold_left Macro.max (samples thm0 CELSIUS [m; m']) F32.FLT_MIN,
         fold_left Macro.min (samples thm0 CELSIUS [m; m']) F32.FLT_MAX,
         F32.div (fsum (samples thm0 CELSIUS [m; m'])) (F32.of_Z (2 + 1))) /\
   (snd (ccputemp_do_normal m ([m; m'] ++ m :: []) [] 1 CELSIUS 2 1) = Ret 0 \/
    snd (ccputemp_do_normal m ([m; m'] ++ m :: []) [] 1 CELSIUS 2 1)
      = Fault NullStream)) /\
  (Forall2 (fun w v =>
              ccputemp_get_unit_temp_from_file w (Some thm0) CELSIUS = Some v)
           [m; m'] (samples thm0 CELSIUS [m; m']) /\
   ccputemp_do_avg m ([m; m'] ++ []) 1 CELSIUS 2 =
   (EVersion :: repeat ESleep (Z.to_nat 2) ++
      [EAverage (F32.div (fsum (samples thm0 CELSIUS [m; m'])) (F32.of_Z 2))
                (ccputemp_temp_unit_t_to_str CELSIUS)], Ret 0) /\
   ticks (fst (ccputemp_do_avg m ([m; m'] ++ []) 1 CELSIUS 2)) = Z.to_nat 2).
Proof.
  intros m m'.
  apply (bounded_run_ticks m thm0 [m; m'] m [] [] 1 CELSIUS [] CELSIUS 2 1).
  - lia.
  - reflexivity.
  - reflexivity.
  - discriminate.
  - repeat constructor; unfold readable; vm_compute; discriminate.
  - reflexivity.
Defined.
